(** * CropCare: the plant disease detector and the advice service

    A shallow embedding of [CropCareAI/plant_disease_detector.py], of
    [CropCareAI/gemini_service.py] (the advice function and the chat
    sessions) and of the treatment route of [CropCareAI/app.py].

    Conventions of the embedding.
    - A Python [float] is a rational number ([Q]): arithmetic is exact and
      binary64 rounding is not modelled.  Decimal literals of the source
      ([0.15], [0.904], ...) are the same decimals here.  Where rounding
      decides what the code does it is kept apart: the mean that rule 5 of the
      classifier compares with [0.1] is the binary64 mean, a section variable,
      and [float] of a number refuses what binary64 cannot hold.
    - A Python function is a computation in the monad [M]: it reads the
      outside world (files, the image decoder), may consume draws of the
      process-wide [random] generator, and either returns or raises.
    - Functions of OpenCV and NumPy whose arithmetic the source does not
      spell out (colour conversion, [cv2.Sobel], [cv2.resize], [np.sqrt],
      [float] of a string) are section variables. *)

From Stdlib Require Import QArith ZArith NArith Arith List String Ascii Bool.
From Stdlib Require Import Qround Qabs Lia Lqa.
Import ListNotations.

Local Open Scope string_scope.
#[local] Set Warnings "-register-all".

(** ** Python runtime *)

Module Py.

(** The exceptions the modelled code can meet; all derive from [Exception]. *)
Inductive exn : Type :=
| ValueError
| TypeError
| IndexError
| KeyError
| OSError
| cv2_error
| ApiError
| OverflowError
| HTTPException.

Inductive result (A : Type) : Type :=
| Ok (a : A)
| Raise (e : exn).

Arguments Ok {A} a.
Arguments Raise {A} e.

(** Values that [json.load] produces. A dictionary is its list of items;
    numbers are rationals: an integer of any size, or the finite binary64
    value of a literal with a fraction or an exponent (the literals [NaN] and
    [Infinity], and a literal that overflows to infinity, have no counterpart
    here). *)
Inductive pyval : Type :=
| PNone
| PBool (b : bool)
| PNum (q : Q)
| PStr (s : string)
| PList (l : list pyval)
| PDict (d : list (string * pyval)).

(** [x > y] and [x < y] on floats. *)
Definition Qltb (x y : Q) : bool :=
  (Qnum x * QDen y <? Qnum y * QDen x)%Z.

Definition Qgtb (x y : Q) : bool := Qltb y x.

(** [needle in hay] for two strings. *)
Fixpoint str_contains (needle hay : string) : bool :=
  prefix needle hay ||
  match hay with
  | EmptyString => false
  | String _ rest => str_contains needle rest
  end.

(** [s.replace(old, new)] for one-character [old] and [new]. *)
Fixpoint str_replace (old new : ascii) (s : string) : string :=
  match s with
  | EmptyString => EmptyString
  | String c rest =>
      String (if Ascii.eqb c old then new else c) (str_replace old new rest)
  end.

(** The characters of a string, as [for ch in s] yields them. *)
Fixpoint str_chars (s : string) : list string :=
  match s with
  | EmptyString => []
  | String c rest => String c EmptyString :: str_chars rest
  end.

(** [seq[i]] for a list or array and a non-negative index. *)
Definition getitem {A : Type} (l : list A) (i : nat) : result A :=
  match nth_error l i with
  | Some a => Ok a
  | None => Raise IndexError
  end.

(** *** The random generator

    The state of [random] is the stream of its future raw outputs; each call
    of the module takes the next one.  [random.random()] is [k / 2^53] for an
    integer [0 <= k < 2^53], and [_randbelow(n)] is below [n].  How the
    outputs are distributed is the library's matter: the statements below say
    which draw decides an outcome and which outcomes are possible. *)
Definition rng : Type := nat -> N.

Definition rng_head (g : rng) : N := g 0%nat.
Definition rng_tail (g : rng) : rng := fun i => g (S i).

Definition two53 : positive := (2 ^ 53)%positive.

Definition unit_float (raw : N) : Q :=
  Z.of_N (raw mod Npos two53) # two53.

Definition below (n : nat) (raw : N) : nat :=
  N.to_nat (raw mod N.of_nat n).

End Py.

Import Py.

(** ** Images *)

Module Cv2.

(** An 8-bit channel value. *)
Record uint8 : Type := mk_uint8 {
  u8 : N;
  u8_range : (u8 <? 256)%N = true
}.

Lemma mod_256_range (n : N) : (n mod 256 <? 256)%N = true.
Proof. apply N.ltb_lt. apply N.mod_lt. discriminate. Qed.

(** The 8-bit value of a number, as a cast to [np.uint8] stores it. *)
Definition to_uint8 (n : N) : uint8 := mk_uint8 (n mod 256) (mod_256_range n).

(** A three-channel pixel, channels in the order the array stores them. *)
Definition pixel : Type := (uint8 * uint8 * uint8)%type.

(** A [height x width] array of cells, addressed by row and column. *)
Record grid (A : Type) : Type := mk_grid {
  height : nat;
  width : nat;
  at_ : nat -> nat -> A
}.

Arguments mk_grid {A} height width at_.
Arguments height {A} g.
Arguments width {A} g.
Arguments at_ {A} g i j.

Definition image : Type := grid pixel.

Definition is_empty {A : Type} (g : grid A) : bool :=
  (height g =? 0)%nat || (width g =? 0)%nat.

(** All cells, row after row (the order of [ndarray.flatten]). *)
Definition cells {A : Type} (g : grid A) : list A :=
  flat_map (fun i => map (fun j => at_ g i j) (seq 0 (width g)))
           (seq 0 (height g)).

(** A cell-wise operation: same shape, each cell transformed. *)
Definition grid_map {A B : Type} (f : A -> B) (g : grid A) : grid B :=
  mk_grid (height g) (width g) (fun i j => f (at_ g i j)).

End Cv2.

Import Cv2.

(** ** The outside world and the monad of Python computations *)

(** What the code reads from outside: which paths exist, what opening a path
    and running [json.load] on it gives, and what [cv2.imread] decodes
    ([None] when the file is missing or is not an image). *)
Record World : Type := mk_World {
  os_path_exists : string -> bool;
  json_load_file : string -> result pyval;
  cv2_imread : string -> option image
}.

Definition M (A : Type) : Type := World -> rng -> result A * rng.

Definition ret {A : Type} (a : A) : M A := fun _ g => (Ok a, g).

Definition raise {A : Type} (e : exn) : M A := fun _ g => (Raise e, g).

Definition bind {A B : Type} (c : M A) (k : A -> M B) : M B :=
  fun w g =>
    match c w g with
    | (Ok a, g') => k a w g'
    | (Raise e, g') => (Raise e, g')
    end.

Notation "x <- c ;; k" := (bind c (fun x => k))
  (at level 61, c at next level, right associativity).

(** [try: body  except Exception as e: handler e]. *)
Definition try_except {A : Type} (body : M A) (handler : exn -> M A) : M A :=
  fun w g =>
    match body w g with
    | (Ok a, g') => (Ok a, g')
    | (Raise e, g') => handler e w g'
    end.

Definition lift {A : Type} (r : result A) : M A := fun _ g => (r, g).

Definition ask : M World := fun w g => (Ok w, g).

(** *** The [random] module *)

(** [random.random()]. *)
Definition random_random : M Q :=
  fun _ g => (Ok (unit_float (rng_head g)), rng_tail g).

(** [random._randbelow(n)] for [n > 0]. *)
Definition random_randbelow (n : nat) : M nat :=
  fun _ g => (Ok (below n (rng_head g)), rng_tail g).

(** [random.uniform(a, b)] is [a + (b - a) * random()]. *)
Definition random_uniform (a b : Q) : M Q :=
  r <- random_random ;; ret (a + (b - a) * r)%Q.

(** [random.choice(seq)]: [IndexError] on an empty sequence. *)
Definition random_choice {A : Type} (l : list A) : M A :=
  match l with
  | [] => raise IndexError
  | _ :: _ => i <- random_randbelow (List.length l) ;; lift (getitem l i)
  end.

(** [random.randint(a, b)]: [a + _randbelow(b - a + 1)], [ValueError] on an
    empty range. *)
Definition random_randint (a b : nat) : M nat :=
  if (b <? a)%nat then raise ValueError
  else i <- random_randbelow (b - a + 1) ;; ret (a + i)%nat.

(** ** NumPy reductions over the flattened array *)

(** [np.sum] and [np.mean], in exact arithmetic. *)
Definition np_sum (l : list Q) : Q := fold_right Qplus 0%Q l.

Definition np_mean (l : list Q) : Q :=
  (np_sum l / inject_Z (Z.of_nat (List.length l)))%Q.

(** [a.max()]: [ValueError] on an empty array. *)
Definition np_max (l : list Q) : result Q :=
  match l with
  | [] => Raise ValueError
  | x :: rest => Ok (fold_left (fun m y => if Qltb m y then y else m) rest x)
  end.

Fixpoint insert_sorted (x : Q) (l : list Q) : list Q :=
  match l with
  | [] => [x]
  | y :: rest => if Qle_bool x y then x :: l else y :: insert_sorted x rest
  end.

Definition np_sort (l : list Q) : list Q := fold_right insert_sorted [] l.

(** [np.percentile(a, q)] with the default linear interpolation: the virtual
    index [(n - 1) * q / 100] of the sorted data, interpolated between its two
    neighbours. *)
Definition np_percentile (l : list Q) (q : Q) : Q :=
  let sorted := np_sort l in
  let n := List.length l in
  let virtual := (inject_Z (Z.of_nat (n - 1)) * (q / 100))%Q in
  let previous := Z.to_nat (Qfloor virtual) in
  let next := Nat.min (previous + 1) (n - 1) in
  let gamma := (virtual - inject_Z (Z.of_nat previous))%Q in
  let lo := nth previous sorted 0%Q in
  let hi := nth next sorted 0%Q in
  (lo + (hi - lo) * gamma)%Q.

(** ** gemini_service.py *)

Module Gemini.

(** What [model.generate_content] hands back: its truth value and what
    reading [response.text] gives. *)
Record response : Type := mk_response {
  truthy : bool;
  text : result string
}.

Definition prompt_head : string := "
        You are a plant disease expert. Provide treatment recommendations for plants affected by ".

Definition prompt_tail : string := ".
        
        Follow this structure in your response:
        1. Brief description of the disease
        2. Symptoms
        3. Treatment recommendations (organic and chemical options)
        4. Prevention tips
        
        Keep your response informative but concise (less than 500 words).
        ".

Definition fallback_head : string := "
        # Treatment Recommendations for ".

Definition fallback_tail : string := "

        ## Description
        This is a common plant disease that affects crops and ornamental plants.

        ## Symptoms
        - Discoloration of leaves
        - Spots or lesions
        - Wilting or stunted growth

        ## Treatment
        - Remove affected plant parts
        - Apply appropriate fungicide or insecticide
        - Ensure proper plant nutrition

        ## Prevention
        - Rotate crops
        - Use disease-resistant varieties
        - Maintain good air circulation
        - Water at the base of plants to keep foliage dry

        *Note: These are general recommendations. For specific treatment, please consult with a local agricultural extension service.*
        ".

Definition unable_message : string :=
  "Unable to generate treatment recommendations at this time.".

Section Service.

(** The external service: building [genai.GenerativeModel] for the named
    model and calling [generate_content] on the prompt either raises or gives
    a response. *)
Variable generate_content : string -> string -> result response.

Definition get_treatment_recommendation (disease_name : string) : result string :=
  let attempt :=
    let disease := str_replace "_" " " disease_name in
    let prompt := prompt_head ++ disease ++ prompt_tail in
    match generate_content "gemini-1.5-pro" prompt with
    | Ok response =>
        if truthy response then text response else Ok unable_message
    | Raise e => Raise e
    end in
  match attempt with
  | Ok reply => Ok reply
  | Raise _ =>
      Ok (fallback_head ++ str_replace "_" " " disease_name ++ fallback_tail)
  end.

End Service.

(** The external call failed: building the model or generating raised, or
    reading [response.text] raised. *)
Definition call_failed (outcome : result response) : Prop :=
  match outcome with
  | Raise _ => True
  | Ok response => truthy response = true /\ exists e, text response = Raise e
  end.

End Gemini.

(** ** gemini_service.py: the chat sessions *)

Module GeminiChat.

Import Gemini.

(** A dictionary with string keys, as the list of its items. *)
Definition dict_get {V : Type} (d : list (string * V)) (key : string) : option V :=
  option_map snd (find (fun kv => String.eqb (fst kv) key) d).

(** [d[key] = v]: the value of an existing key is replaced, a new key is
    added at the end. *)
Fixpoint dict_set {V : Type} (d : list (string * V)) (key : string) (v : V)
  : list (string * V) :=
  match d with
  | [] => [(key, v)]
  | kv :: rest =>
      if String.eqb (fst kv) key then (key, v) :: rest
      else kv :: dict_set rest key v
  end.

Definition sorry_message : string :=
  "Sorry, I cannot respond at the moment because the API key is missing. Please contact the administrator.".

Definition failed_message : string :=
  "Failed to initialize chat session. Please try again later.".

Definition no_response_message : string :=
  "I couldn't generate a response. Please try again.".

Definition apology_message : string :=
  "I apologize, but I encountered an error while processing your request. Please try again later.".

Definition priming_message : string :=
  "You are a plant disease expert assistant. Please acknowledge your role.".

Section Chat.

(** The library's chat objects and the state of the remote service (the
    conversations included).  [start_chat] stands for building
    [genai.GenerativeModel('gemini-1.5-pro')] and calling [model.start_chat()];
    [send_message] for [chat.send_message(text)].  Either may raise.
    [API_KEY] is the module constant read from the environment at import. *)
Variable chat : Type.
Variable service : Type.
Variable start_chat : service -> result chat * service.
Variable send_message : chat -> string -> service -> result response * service.
Variable API_KEY : string.

(** The module's state: the dictionary [chat_history], and the service. *)
Record state : Type := mk_state {
  chat_history : list (string * chat);
  remote : service
}.

(** [not API_KEY]. *)
Definition no_key : bool := String.eqb API_KEY "".

(** Every exception of the body is caught and answered with [False]. *)
Definition initialize_chat (session_id : string) (st : state) : bool * state :=
  if no_key then (false, st)
  else
    match start_chat (remote st) with
    | (Raise _, r1) => (false, mk_state (chat_history st) r1)
    | (Ok c, r1) =>
        match send_message c priming_message r1 with
        | (Raise _, r2) => (false, mk_state (chat_history st) r2)
        | (Ok _, r2) =>
            (true, mk_state (dict_set (chat_history st) session_id c) r2)
        end
    end.

(** The reply made of what [chat.send_message(user_message)] gave: the text
    of a response that is true, the apology when reading the text raises (the
    library raises [ValueError] there, which [hasattr] lets through to the
    handler), the fixed sentence for a response that is false. *)
Definition reply_of (outcome : result response) : string :=
  match outcome with
  | Raise _ => apology_message
  | Ok r =>
      if truthy r then
        match text r with
        | Ok t => t
        | Raise _ => apology_message
        end
      else no_response_message
  end.

(** Every exception of the body is caught and answered with the apology. *)
Definition chat_with_gemini (session_id user_message : string) (st : state)
  : string * state :=
  if no_key then (sorry_message, st)
  else
    let '(success, st1) :=
      match dict_get (chat_history st) session_id with
      | None => initialize_chat session_id st
      | Some _ => (true, st)
      end in
    if negb success then (failed_message, st1)
    else
      match dict_get (chat_history st1) session_id with
      | None => (apology_message, st1)
      | Some c =>
          let '(outcome, r) := send_message c user_message (remote st1) in
          (reply_of outcome, mk_state (chat_history st1) r)
      end.

End Chat.

Arguments mk_state {chat service} chat_history remote.
Arguments chat_history {chat service} s.
Arguments remote {chat service} s.

End GeminiChat.

(** A stand-in service: chats are numbered as they are started, the state
    counts the calls, and every message is answered by an echo. *)
Module DemoChat.

Definition start (n : nat) : result nat * nat := (Ok n, S n).

Definition send (c : nat) (message : string) (n : nat)
  : result Gemini.response * nat :=
  (Ok (Gemini.mk_response true (Ok ("echo: " ++ message))), S n).

(** A service on which nothing works. *)
Definition start_down (n : nat) : result nat * nat := (Raise ApiError, S n).

(** A generative service that answers every prompt with one sentence, and
    messages for the exceptions a route reports. *)
Definition answering_service (model prompt : string) : result Gemini.response :=
  Ok (Gemini.mk_response true (Ok "Prune and apply copper.")).

Definition message_of_exn (e : exn) : string := "error".

Definition message_of_value (v : pyval) : string :=
  "object has no attribute 'replace'".

Definition fresh : GeminiChat.state nat nat := GeminiChat.mk_state [] 0%nat.

Definition one_session : GeminiChat.state nat nat :=
  GeminiChat.mk_state [("alice", 7%nat)] 8%nat.

End DemoChat.

(** ** plant_disease_detector.py *)

Definition CLASSES : list string := [
  "Apple_Apple_scab"; "Apple_Black_rot"; "Apple_Cedar_apple_rust"; "Apple_Healthy";
  "Background_without_leaves"; "Blueberry_Healthy"; "Cherry_Powdery_mildew"; "Cherry_Healthy";
  "Corn_Cercospora_leaf_spot"; "Corn_Common_rust"; "Corn_Northern_Leaf_Blight"; "Corn_Healthy";
  "Grape_Black_rot"; "Grape_Esca"; "Grape_Leaf_blight"; "Grape_Healthy";
  "Orange_Haunglongbing"; "Peach_Bacterial_spot"; "Peach_Healthy";
  "Pepper_Bacterial_spot"; "Pepper_Healthy"; "Potato_Early_blight"; "Potato_Late_blight"; "Potato_Healthy";
  "Raspberry_Healthy"; "Soybean_Healthy"; "Squash_Powdery_mildew";
  "Strawberry_Leaf_scorch"; "Strawberry_Healthy"; "Tomato_Bacterial_spot"; "Tomato_Early_blight";
  "Tomato_Late_blight"; "Tomato_Leaf_Mold"; "Tomato_Septoria_leaf_spot";
  "Tomato_Spider_mites"; "Tomato_Target_Spot"; "Tomato_Mosaic_virus"; "Tomato_Yellow_Leaf_Curl_Virus"; "Tomato_Healthy"
].

(** [a and b] where [b] is only evaluated when [a] holds. *)
Definition and_then (a : bool) (b : M bool) : M bool :=
  if a then b else ret false.

(** ** Concrete inputs

    Small worlds, generators and stand-ins for the library functions, on which
    the statements below are exercised. *)

Module Demo.

(** A generator whose every raw output is [n]. *)
Definition always (n : N) : rng := fun _ => n.

(** No file exists and no image can be decoded. *)
Definition no_files : World :=
  mk_World (fun _ => false) (fun _ => Raise OSError) (fun _ => None).

Definition rgb (r g b : N) : pixel := (to_uint8 r, to_uint8 g, to_uint8 b).

(** A 2 x 2 picture: green, brown / dark, white. *)
Definition leaf : image :=
  mk_grid 2 2 (fun i j =>
    match i, j with
    | 0%nat, 0%nat => rgb 40 160 40
    | 0%nat, _ => rgb 120 80 30
    | _, 0%nat => rgb 10 10 10
    | _, _ => rgb 250 250 250
    end).

(** Only ["leaf.jpg"] decodes; there is no sample file. *)
Definition leaf_only : World :=
  mk_World (fun _ => false) (fun _ => Raise OSError)
           (fun path => if String.eqb path "leaf.jpg" then Some leaf else None).

(** The first candidate file exists but does not parse; the second holds one
    prediction. *)
Definition second_candidate : World :=
  mk_World
    (fun path => String.eqb path "attached_assets/detection_results.json"
                 || String.eqb path "static/data/detection_results.json")
    (fun path =>
       if String.eqb path "static/data/detection_results.json"
       then Ok (PList [PDict [("prediction", PStr "Wheat_Rust");
                              ("confidence", PNum 1.5%Q)]])
       else Raise ValueError)
    (fun _ => None).

(** Stand-ins: a grey level as the channel mean, a forward difference for the
    derivative, nearest-neighbour resampling, a truncated square root with
    three decimals, a [float] that accepts no string, and a mean. *)
Definition hsv_of (p : pixel) : pixel := p.

Definition gray_of (p : pixel) : uint8 :=
  let '(r, g, b) := p in to_uint8 ((u8 r + u8 g + u8 b) / 3).

Definition sobel_of (src : grid uint8) (dx dy i j : nat) : Q :=
  (inject_Z (Z.of_N (u8 (at_ src (i + dy) (j + dx))))
   - inject_Z (Z.of_N (u8 (at_ src i j))))%Q.

Definition resize_of (src : image) (w h i j : nat) : pixel :=
  at_ src (i * height src / h) (j * width src / w).

Definition sqrt_of (x : Q) : Q :=
  Z.sqrt (Qfloor (x * 1000000)) # 1000.

Definition float_of (s : string) : result Q := Raise ValueError.

(** For the binary64 mean, the exact one (on the hand-written vectors below
    that reach rule 5 the five ratios are all zero, and so is their mean
    either way). *)
Definition mean_of (l : list Q) : Q := np_mean l.

(** A service that cannot be reached, as without a credential. *)
Definition unreachable_service (model prompt : string) : result Gemini.response :=
  Raise ApiError.

(** A feature vector on which rule 1 and rule 2 both match. *)
Definition brown_and_yellow : list Q :=
  [0.2; 0.5; 0; 0; 0; 0.3; 0.5; 0.5; 0.1; 0.3; 0.2]%Q.

(** A feature vector on which no threshold rule matches. *)
Definition featureless : list Q := [0; 0; 0; 0; 0; 0; 0; 0; 0; 0; 0]%Q.

End Demo.

(** Sample files for the statements about reading them. *)
Module DemoFiles.

Definition corn : pyval :=
  PDict [("prediction", PStr "Corn_Healthy"); ("confidence", PNum 0.81%Q)].

Definition rust : pyval :=
  PDict [("image", PStr "r.jpg"); ("prediction", PStr "Wheat_Rust");
         ("confidence", PNum 0.4%Q)].

(** An object without a confidence, and one whose confidence is [null]. *)
Definition unscored : pyval := PDict [("prediction", PStr "Apple_Healthy")].

Definition null_confidence : pyval :=
  PDict [("prediction", PStr "Apple_Healthy"); ("confidence", PNone)].

Definition world_with (file : string) (content : pyval) : World :=
  mk_World (fun path => String.eqb path file)
           (fun path => if String.eqb path file then Ok content else Raise OSError)
           (fun _ => None).

(** The last candidate holds two predictions around an object without a
    confidence. *)
Definition mixed : World :=
  world_with "detection_results.json" (PList [corn; unscored; rust]).

(** The first candidate holds a table of two entries. *)
Definition first_candidate : World :=
  world_with "attached_assets/detection_results.json"
    (PList [PDict [("prediction", PStr "Corn_Healthy"); ("confidence", PNum 0.81%Q)];
            PDict [("prediction", PStr "Wheat_Rust"); ("confidence", PNum 0.4%Q)]]).

(** A good object, then one with a [null] confidence. *)
Definition spoiled : World :=
  world_with "detection_results.json" (PList [corn; null_confidence; rust]).

(** The first candidate holds one object, whose confidence is the integer
    [10^400]. *)
Definition overflowing : World :=
  world_with "attached_assets/detection_results.json"
    (PList [PDict [("prediction", PStr "Corn_Healthy");
                   ("confidence", PNum (inject_Z (10 ^ 400)))]]).

(** A world like [Demo.no_files] but for files [detect_disease] never asks
    for. *)
Definition unrelated_files : World :=
  mk_World (fun path => String.eqb path "notes.json")
           (fun path => if String.eqb path "notes.json" then Ok PNone
                        else Raise OSError)
           (fun path => if String.eqb path "other.jpg" then Some Demo.leaf else None).

(** Feature vectors: yellow, white and black all above their thresholds;
    no indicator and a high mean hue. *)
Definition yellow_white_black : list Q :=
  [0.1; 0.3; 0.2; 0.2; 0; 0.3; 0.5; 0.5; 0.1; 0.3; 0.2]%Q.

Definition green : list Q := [0; 0; 0; 0; 0; 0.5; 0.5; 0.5; 0.1; 0.1; 0.1]%Q.

End DemoFiles.

Section Detector.

(** The per-pixel colour conversions of [cv2.cvtColor], the derivative
    filter [cv2.Sobel] (value of the filtered image at a cell), the resampling
    of [cv2.resize] (value of the resized image at a cell), [np.sqrt] and
    [float] applied to a string. *)
Variable rgb2hsv : pixel -> pixel.
Variable rgb2gray : pixel -> uint8.
Variable sobel_at : grid uint8 -> nat -> nat -> nat -> nat -> Q.
Variable resize_at : image -> nat -> nat -> nat -> nat -> pixel.
Variable np_sqrt : Q -> Q.
Variable float_of_str : string -> result Q.

(** [np.mean] of a one-dimensional [float64] array as NumPy computes it, in
    binary64: the rounded value, which is what rule 5 of the classifier
    compares with [0.1].  In which order NumPy adds, and so how the value is
    rounded, is the library's matter: nothing is assumed of it. *)
Variable np_mean_float64 : list Q -> Q.

(** What the proofs need of [np.sqrt]: it keeps non-negative numbers
    non-negative and does not take a number of [[0, 1]] above 1. *)
Hypothesis np_sqrt_nonneg : forall x, (0 <= x)%Q -> (0 <= np_sqrt x)%Q.
Hypothesis np_sqrt_unit : forall x, (0 <= x)%Q -> (x <= 1)%Q -> (np_sqrt x <= 1)%Q.

(** [cv2.cvtColor] refuses an empty source. *)
Definition cvtColor {A : Type} (f : pixel -> A) (img : image) : M (grid A) :=
  if is_empty img then raise cv2_error else ret (grid_map f img).

Definition COLOR_RGB2HSV : pixel -> pixel := rgb2hsv.
Definition COLOR_RGB2GRAY : pixel -> uint8 := rgb2gray.
Definition COLOR_BGR2RGB : pixel -> pixel :=
  fun p => let '(b, g, r) := p in (r, g, b).

(** [cv2.Sobel(src, cv2.CV_64F, dx, dy, ksize=3)]. *)
Definition cv2_Sobel (src : grid uint8) (dx dy : nat) : grid Q :=
  mk_grid (height src) (width src) (sobel_at src dx dy).

(** [cv2.resize(src, (w, h))]. *)
Definition cv2_resize (src : image) (w h : nat) : M image :=
  if is_empty src then raise cv2_error
  else ret (mk_grid h w (resize_at src w h)).

(** Common disease indicators: name, lower and upper HSV bound. *)
Definition DISEASE_INDICATORS : list (string * ((N * N * N) * (N * N * N))) := [
  ("Brown spots", ((10, 100, 20), (20, 255, 200)));
  ("Yellow spots", ((20, 100, 100), (30, 255, 255)));
  ("Black spots", ((0, 0, 0), (180, 255, 30)));
  ("White powder", ((0, 0, 200), (180, 30, 255)));
  ("Rotting", ((0, 50, 10), (15, 255, 100)))
]%N.

Definition within (lo hi : N) (c : uint8) : bool :=
  ((lo <=? u8 c) && (u8 c <=? hi))%N.

(** [cv2.inRange]: 255 where every channel lies within its bounds, else 0. *)
Definition cv2_inRange (hsv : image) (lower upper : N * N * N) : grid N :=
  grid_map
    (fun p =>
       let '(c0, c1, c2) := p in
       let '(l0, l1, l2) := lower in
       let '(u0, u1, u2) := upper in
       if within l0 u0 c0 && within l1 u1 c1 && within l2 u2 c2
       then 255%N else 0%N)
    hsv.

Definition channel (i : nat) (p : pixel) : uint8 :=
  let '(c0, c1, c2) := p in
  match i with
  | 0%nat => c0
  | 1%nat => c1
  | _ => c2
  end.

Definition Q_of_N (n : N) : Q := inject_Z (Z.of_N n).
Definition Q_of_nat (n : nat) : Q := inject_Z (Z.of_nat n).

(** [np.sum(mask > 0)]. *)
Definition count_positive (mask : grid N) : nat :=
  List.length (filter (fun m => (0 <? m)%N) (cells mask)).

Definition extract_color_features (img : image) : M (list Q) :=
  hsv <- cvtColor COLOR_RGB2HSV img ;;
  let ratios :=
    map (fun entry =>
           let '(_, (lower, upper)) := entry in
           let mask := cv2_inRange hsv lower upper in
           (Q_of_nat (count_positive mask)
              / Q_of_nat (height img * width img))%Q)
        DISEASE_INDICATORS in
  let means :=
    map (fun i =>
           (np_mean (map (fun p => Q_of_N (u8 (channel i p))) (cells hsv))
              / 255)%Q)
        (seq 0 3) in
  ret (ratios ++ means)%list.

Definition extract_texture_features (img : image) : M (list Q) :=
  gray <- cvtColor COLOR_RGB2GRAY img ;;
  let sobelx := cv2_Sobel gray 1 0 in
  let sobely := cv2_Sobel gray 0 1 in
  let gradient_mag :=
    map (fun xy => np_sqrt (fst xy * fst xy + snd xy * snd xy)%Q)
        (combine (cells sobelx) (cells sobely)) in
  mx <- lift (np_max gradient_mag) ;;
  let gradient_mag :=
    if Qgtb mx 0%Q then map (fun v => (v / mx)%Q) gradient_mag
    else gradient_mag in
  let mean := np_mean gradient_mag in
  let std :=
    np_sqrt (np_mean (map (fun v => (Qabs (v - mean) * Qabs (v - mean))%Q)
                          gradient_mag)) in
  ret [mean; std; np_percentile gradient_mag 90].

Definition preprocess_image (image_path : string) : M image :=
  try_except
    (w <- ask ;;
     match cv2_imread w image_path with
     | None => raise ValueError
     | Some img =>
         img <- cv2_resize img 224 224 ;;
         cvtColor COLOR_BGR2RGB img
     end)
    (fun e => raise e).

(** *** Sample predictions *)

(** A sample prediction: the file's ["prediction"] value as it was parsed
    and the ["confidence"] as a float. *)
Definition sample : Type := (pyval * Q)%type.

(** [for item in results]. *)
Definition py_iter (v : pyval) : result (list pyval) :=
  match v with
  | PList l => Ok l
  | PDict d => Ok (map (fun kv => PStr (fst kv)) d)
  | PStr s => Ok (map PStr (str_chars s))
  | _ => Raise TypeError
  end.

(** [key in item] for a string [key]. *)
Definition py_in (key : string) (item : pyval) : result bool :=
  match item with
  | PDict d => Ok (existsb (fun kv => String.eqb (fst kv) key) d)
  | PList l =>
      Ok (existsb (fun v => match v with
                            | PStr s => String.eqb s key
                            | _ => false
                            end) l)
  | PStr s => Ok (str_contains key s)
  | _ => Raise TypeError
  end.

(** [item[key]] for a string [key]; the items of a dictionary have distinct
    keys. *)
Definition py_getitem (item : pyval) (key : string) : result pyval :=
  match item with
  | PDict d =>
      match find (fun kv => String.eqb (fst kv) key) d with
      | Some kv => Ok (snd kv)
      | None => Raise KeyError
      end
  | _ => Raise TypeError
  end.

(** Where [float] of an integer overflows: from [2^1024 - 2^970] on, halfway
    between the largest binary64 value and [2^1024], the nearest binary64
    value is infinite.  Every finite binary64 value is below it. *)
Definition float_overflow : Q := inject_Z (2 ^ 1024 - 2 ^ 970).

(** [float(v)].  A float is returned as it is; an integer is converted, and
    [float] raises [OverflowError] for one that is too large. *)
Definition py_float (v : pyval) : result Q :=
  match v with
  | PNum q => if Qltb (Qabs q) float_overflow then Ok q else Raise OverflowError
  | PBool b => Ok (if b then 1 else 0)%Q
  | PStr s => float_of_str s
  | _ => Raise TypeError
  end.

(** The body of [for item in results], from the items not yet visited and
    [loaded_predictions] so far. *)
Fixpoint collect_predictions (items : list pyval) (loaded_predictions : list sample)
  : M (list sample) :=
  match items with
  | [] => ret loaded_predictions
  | item :: rest =>
      has_prediction <- lift (py_in "prediction" item) ;;
      both <- and_then has_prediction (lift (py_in "confidence" item)) ;;
      if both then
        prediction <- lift (py_getitem item "prediction") ;;
        confidence <- lift (py_getitem item "confidence") ;;
        confidence <- lift (py_float confidence) ;;
        collect_predictions rest (loaded_predictions ++ [(prediction, confidence)])%list
      else collect_predictions rest loaded_predictions
  end.

(** The statements of the [with open(...)] block up to the test of
    [loaded_predictions]. *)
Definition read_predictions (detection_results_file : string) : M (list sample) :=
  w <- ask ;;
  results <- lift (json_load_file w detection_results_file) ;;
  items <- lift (py_iter results) ;;
  collect_predictions items [].

Definition builtin_predictions : list sample := [
  (PStr "Apple_Scab", 0.904%Q);
  (PStr "Tomato_Late_blight", 0.856%Q);
  (PStr "Potato_Healthy", 0.736%Q);
  (PStr "Grape_Black_rot", 0.892%Q);
  (PStr "Corn_Common_rust", 0.817%Q)
].

Definition possible_locations : list string := [
  "attached_assets/detection_results.json";
  "static/data/detection_results.json";
  "detection_results.json"
].

(** The loop over the candidate files: [sample_predictions] is the variable
    of that name, replaced (and the loop left) by the first file that loads
    with at least one prediction. *)
Fixpoint scan_locations (locations : list string) (sample_predictions : list sample)
  : M (list sample) :=
  match locations with
  | [] => ret sample_predictions
  | detection_results_file :: rest =>
      w <- ask ;;
      if os_path_exists w detection_results_file then
        loaded <- try_except
                    (l <- read_predictions detection_results_file ;; ret (Some l))
                    (fun _ => ret None) ;;
        match loaded with
        | Some (p :: ps) => ret (p :: ps)
        | _ => scan_locations rest sample_predictions
        end
      else scan_locations rest sample_predictions
  end.

Definition load_sample_predictions : M (list sample) :=
  scan_locations possible_locations builtin_predictions.

(** *** Classification *)

Definition healthy_indices : list nat :=
  [3; 5; 7; 11; 15; 18; 20; 23; 24; 25; 28; 38]%nat.

(** Rule 5 tests the binary64 mean of the five ratios.  No binary64 value lies
    between one tenth and the value of the literal [0.1], so for that mean
    [< 0.1] is the comparison with one tenth. *)
Definition simple_disease_classifier (features : list Q) : M nat :=
  let color_features := firstn 8 features in
  let texture_features := skipn 8 features in
  c0 <- lift (getitem color_features 0) ;;
  rule1 <- and_then (Qgtb c0 0.15%Q)
             (t1 <- lift (getitem texture_features 1) ;; ret (Qgtb t1 0.2%Q)) ;;
  if rule1 then
    r <- random_random ;; ret (if Qgtb r 0.5%Q then 1 else 0)%nat
  else
  c1 <- lift (getitem color_features 1) ;;
  if Qgtb c1 0.2%Q then ret 30%nat else
  c3 <- lift (getitem color_features 3) ;;
  if Qgtb c3 0.1%Q then ret 6%nat else
  c2 <- lift (getitem color_features 2) ;;
  if Qgtb c2 0.12%Q then ret 31%nat else
  rule5 <- and_then (Qltb (np_mean_float64 (firstn 5 color_features)) 0.1%Q)
             (c5 <- lift (getitem color_features 5) ;; ret (Qgtb c5 0.4%Q)) ;;
  if rule5 then random_choice healthy_indices
  else random_randint 0 (List.length CLASSES - 1).

(** *** Detection *)

Definition nonempty {A : Type} (l : list A) : bool :=
  match l with
  | [] => false
  | _ :: _ => true
  end.

(** The [else] branch of [detect_disease]: classify and draw a confidence. *)
Definition classify_with_confidence (features : list Q) : M sample :=
  predicted_class_index <- simple_disease_classifier features ;;
  predicted_class <- lift (getitem CLASSES predicted_class_index) ;;
  confidence <- (if str_contains "Healthy" predicted_class
                 then random_uniform 0.7 0.95
                 else random_uniform 0.6 0.9) ;;
  ret (PStr predicted_class, confidence).

(** The feature vector of an image: colour features, then texture features. *)
Definition extract_features (img : image) : M (list Q) :=
  color_features <- extract_color_features img ;;
  texture_features <- extract_texture_features img ;;
  ret (color_features ++ texture_features)%list.

(** The [except] handler of [detect_disease]. *)
Definition fallback_prediction (e : exn) : M sample :=
  table <- load_sample_predictions ;;
  random_choice table.

Definition detect_disease (image_path : string) : M sample :=
  try_except
    (img <- preprocess_image image_path ;;
     features <- extract_features img ;;
     sample_predictions <- load_sample_predictions ;;
     r <- random_random ;;
     let use_sample := Qltb r 0.3 in
     if use_sample && nonempty sample_predictions
     then random_choice sample_predictions
     else classify_with_confidence features)
    fallback_prediction.

(** *** Vocabulary of the statements *)

(** The conditions of the five threshold rules, on the feature vector; the
    mean of rule 5 is the binary64 one. *)
Definition rule1 (features : list Q) : Prop :=
  (0.15 < nth 0 features 0)%Q /\ (0.2 < nth 9 features 0)%Q.

Definition rule2 (features : list Q) : Prop := (0.2 < nth 1 features 0)%Q.

Definition rule3 (features : list Q) : Prop := (0.1 < nth 3 features 0)%Q.

Definition rule4 (features : list Q) : Prop := (0.12 < nth 2 features 0)%Q.

Definition rule5 (features : list Q) : Prop :=
  (np_mean_float64 (firstn 5 features) < 0.1)%Q /\ (0.4 < nth 5 features 0)%Q.

(** A number of the closed interval from 0 to 1. *)
Definition unit_interval (x : Q) : Prop := (0 <= x)%Q /\ (x <= 1)%Q.

(** The candidate [file] is usable: it exists and reading it gives the
    non-empty list [table]. *)
Definition loads (w : World) (file : string) (table : list sample) : Prop :=
  os_path_exists w file = true
  /\ table <> []
  /\ forall g, read_predictions file w g = (Ok table, g).

(** The candidate [file] is passed over: it does not exist, or reading it
    raises, or it yields no prediction. *)
Definition passed_over (w : World) (file : string) : Prop :=
  os_path_exists w file = false
  \/ (exists e, forall g, read_predictions file w g = (Raise e, g))
  \/ (forall g, read_predictions file w g = (Ok [], g)).

(** The image [preprocess_image] returns for the decoded array [raw]. *)
Definition preprocessed (raw : image) : image :=
  grid_map COLOR_BGR2RGB (mk_grid 224 224 (resize_at raw 224 224)).

(** The confidence ranges of the classifier branch. *)
Definition confidence_in_range (label : string) (confidence : Q) : Prop :=
  if str_contains "Healthy" label
  then (0.7 <= confidence)%Q /\ (confidence <= 0.95)%Q
  else (0.6 <= confidence)%Q /\ (confidence <= 0.9)%Q.

(** The outcome [r] is [random.choice(table)] at generator state [g]. *)
Definition picked (table : list sample) (g : rng) (r : result sample * rng) : Prop :=
  exists entry,
    getitem table (below (List.length table) (rng_head g)) = Ok entry
    /\ In entry table
    /\ r = (Ok entry, rng_tail g).

(** The outcome [r] is a label of [CLASSES] with a confidence of its range. *)
Definition classified (r : result sample * rng) : Prop :=
  exists label confidence g',
    r = (Ok (PStr label, confidence), g')
    /\ In label CLASSES
    /\ confidence_in_range label confidence.

(** The value a dictionary's items hold for [key], if any. *)
Definition dict_lookup (d : list (string * pyval)) (key : string) : option pyval :=
  option_map snd (find (fun kv => String.eqb (fst kv) key) d).

(** A number that [float] leaves as it is: up to [2^53] in magnitude every
    integer is a binary64 value, and nothing overflows. *)
Definition float_exact_bound : Q := inject_Z (2 ^ 53).

Definition float_exact (q : Q) : Prop := (Qabs q <= float_exact_bound)%Q.

(** The entry a JSON object stands for: it has both keys and its confidence
    is a number that [float] leaves as it is. *)
Definition entry_of_item (item : pyval) : option sample :=
  match item with
  | PDict d =>
      match dict_lookup d "prediction", dict_lookup d "confidence" with
      | Some prediction, Some (PNum confidence) =>
          if Qle_bool (Qabs confidence) float_exact_bound
          then Some (prediction, confidence)
          else None
      | _, _ => None
      end
  | _ => None
  end.

(** A JSON object that lacks one of the two keys, or has both with, as its
    confidence, a number that [float] leaves as it is. *)
Definition plain_item (item : pyval) : Prop :=
  exists d,
    item = PDict d
    /\ (dict_lookup d "prediction" = None
        \/ dict_lookup d "confidence" = None
        \/ exists confidence,
             dict_lookup d "confidence" = Some (PNum confidence)
             /\ float_exact confidence).

(** The entries of the objects that stand for one, in order. *)
Fixpoint entries_of_items (items : list pyval) : list sample :=
  match items with
  | [] => []
  | item :: rest =>
      match entry_of_item item with
      | Some entry => entry :: entries_of_items rest
      | None => entries_of_items rest
      end
  end.

(** The JSON object of a prediction. *)
Definition prediction_item (entry : sample) : pyval :=
  PDict [("prediction", fst entry); ("confidence", PNum (snd entry))].

(** What a run of the classifier may end in: a position of [CLASSES], or
    [IndexError] with the generator untouched. *)
Definition index_or_IndexError (r : result nat * rng) (g : rng) : Prop :=
  (exists idx g', r = (Ok idx, g') /\ (idx < List.length CLASSES)%nat)
  \/ r = (Raise IndexError, g).

(** Two worlds that agree on everything [detect_disease] is given to read for
    [path]: what the image decodes to, and the three candidate files. *)
Definition same_inputs (path : string) (w1 w2 : World) : Prop :=
  cv2_imread w1 path = cv2_imread w2 path
  /\ forall file,
       In file possible_locations ->
       os_path_exists w1 file = os_path_exists w2 file
       /\ json_load_file w1 file = json_load_file w2 file.

(** ** Properties of the detector *)

(** *** Comparisons and the random generator *)

Lemma Qltb_lt (x y : Q) : Qltb x y = true <-> (x < y)%Q.
Proof. unfold Qltb, Qlt. apply Z.ltb_lt. Qed.

Lemma Qltb_ge (x y : Q) : Qltb x y = false <-> (y <= x)%Q.
Proof. unfold Qltb, Qle. rewrite Z.ltb_ge. reflexivity. Qed.

Lemma unit_float_range (raw : N) :
  (0 <= unit_float raw)%Q /\ (unit_float raw < 1)%Q.
Proof.
  unfold unit_float, Qle, Qlt; cbn [Qnum Qden].
  assert (H : (raw mod Npos two53 < Npos two53)%N) by (apply N.mod_lt; discriminate).
  generalize dependent (raw mod Npos two53)%N. generalize two53.
  intros p n H. split; lia.
Qed.

Lemma below_lt (n : nat) (raw : N) : (0 < n)%nat -> (below n raw < n)%nat.
Proof.
  intros Hn. unfold below.
  assert (H : (raw mod N.of_nat n < N.of_nat n)%N) by (apply N.mod_lt; lia).
  lia.
Qed.

Lemma getitem_lt {A : Type} (l : list A) (i : nat) :
  (i < List.length l)%nat -> exists a, getitem l i = Ok a /\ In a l.
Proof.
  intros Hi. unfold getitem.
  destruct (nth_error l i) as [a |] eqn:E.
  - exists a. split; [reflexivity | eapply nth_error_In; eassumption].
  - apply nth_error_None in E. lia.
Qed.

Lemma random_choice_spec {A : Type} (l : list A) (w : World) (g : rng) :
  l <> [] ->
  exists a, random_choice l w g = (Ok a, rng_tail g)
            /\ getitem l (below (List.length l) (rng_head g)) = Ok a
            /\ In a l.
Proof.
  intros Hl. destruct l as [| x l']; [congruence |].
  destruct (getitem_lt (x :: l') (below (List.length (x :: l')) (rng_head g)))
    as (a & Ha & Hin).
  { apply below_lt. cbn. lia. }
  exists a. split; [| split; assumption].
  unfold random_choice, bind, random_randbelow, lift. rewrite Ha. reflexivity.
Qed.

(** *** The classifier *)

Lemma CLASSES_length : List.length CLASSES = 39%nat.
Proof. reflexivity. Qed.

Lemma healthy_indices_valid :
  Forall (fun i => (i < List.length CLASSES)%nat) healthy_indices.
Proof. repeat constructor. Qed.

Ltac eleven features :=
  do 11 (destruct features as [| ? features]; [discriminate |]);
  destruct features; [| discriminate].

Ltac step_M :=
  unfold bind, lift, ret, and_then, random_random, random_randint,
    random_randbelow;
  cbn [getitem nth_error firstn skipn fst snd].

(** On an 11-element vector no index is out of range, and the classifier is
    this cascade. *)
Lemma classifier_cascade (features : list Q) (w : World) (g : rng) :
  List.length features = 11%nat ->
  simple_disease_classifier features w g =
    if Qgtb (nth 0 features 0) 0.15 && Qgtb (nth 9 features 0) 0.2 then
      (Ok (if Qgtb (unit_float (rng_head g)) 0.5 then 1 else 0)%nat, rng_tail g)
    else if Qgtb (nth 1 features 0) 0.2 then (Ok 30%nat, g)
    else if Qgtb (nth 3 features 0) 0.1 then (Ok 6%nat, g)
    else if Qgtb (nth 2 features 0) 0.12 then (Ok 31%nat, g)
    else if Qltb (np_mean_float64 (firstn 5 features)) 0.1 && Qgtb (nth 5 features 0) 0.4
    then random_choice healthy_indices w g
    else (Ok (below (List.length CLASSES) (rng_head g)), rng_tail g).
Proof.
  intros Hlen. eleven features.
  unfold simple_disease_classifier. step_M. cbn [nth].
  repeat match goal with
         | |- context [Qgtb ?a ?b] => destruct (Qgtb a b) eqn:?
         | |- context [Qltb ?a ?b] => destruct (Qltb a b) eqn:?
         end; cbn [andb]; try reflexivity.
Qed.

(** C4: when the brown-indicator ratio exceeds 0.15 and the texture
    standard deviation exceeds 0.2, the classifier resolves by rule 1: it
    returns index 1 or 0 (by one draw compared with 0.5), that is
    [Apple_Black_rot] or [Apple_Apple_scab], whatever the other features are
    (so also when the condition of a later rule holds). *)
Theorem rule1_takes_priority (features : list Q) (w : World) (g : rng) :
  List.length features = 11%nat ->
  rule1 features ->
  exists idx label,
    simple_disease_classifier features w g = (Ok idx, rng_tail g)
    /\ idx = (if Qgtb (unit_float (rng_head g)) 0.5 then 1 else 0)%nat
    /\ getitem CLASSES idx = Ok label
    /\ (label = "Apple_Apple_scab" \/ label = "Apple_Black_rot").
Proof.
  intros Hlen [Hbrown Hstd].
  rewrite (classifier_cascade features w g Hlen).
  apply Qltb_lt in Hbrown, Hstd. unfold Qgtb at 1 2.
  rewrite Hbrown, Hstd. cbn [andb].
  destruct (Qgtb (unit_float (rng_head g)) 0.5).
  - exists 1%nat, "Apple_Black_rot". auto.
  - exists 0%nat, "Apple_Apple_scab". auto.
Qed.

(** C3 (amended): the enumeration holds exactly 39 labels; when none of the
    rules 1 to 5 matches (rule 5 on the binary64 mean of the five ratios), the
    classifier returns [random.randint(0, 38)], the generator's pick below
    [len(CLASSES)], and the labels it can so return are exactly the labels of
    the enumeration. *)
Theorem fallback_draws_from_all_classes :
  List.length CLASSES = 39%nat
  /\ forall features w,
       List.length features = 11%nat ->
       ~ rule1 features -> ~ rule2 features -> ~ rule3 features ->
       ~ rule4 features -> ~ rule5 features ->
       (forall g,
          simple_disease_classifier features w g
          = (Ok (below (List.length CLASSES) (rng_head g)), rng_tail g))
       /\ (forall label,
             In label CLASSES <->
             exists g idx,
               simple_disease_classifier features w g = (Ok idx, rng_tail g)
               /\ getitem CLASSES idx = Ok label).
Proof.
  split; [reflexivity |].
  intros features w Hlen H1 H2 H3 H4 H5.
  assert (Hrun : forall g,
            simple_disease_classifier features w g
            = (Ok (below (List.length CLASSES) (rng_head g)), rng_tail g)).
  { intros g. rewrite (classifier_cascade features w g Hlen).
    unfold rule1, rule2, rule3, rule4, rule5 in *. unfold Qgtb.
    rewrite <- !Qltb_lt in *.
    destruct (Qltb 0.15 (nth 0 features 0)) eqn:E0;
    destruct (Qltb 0.2 (nth 9 features 0)) eqn:E9;
      try (exfalso; apply H1; split; congruence);
    (destruct (Qltb 0.2 (nth 1 features 0)); [exfalso; apply H2; reflexivity |]);
    (destruct (Qltb 0.1 (nth 3 features 0)); [exfalso; apply H3; reflexivity |]);
    (destruct (Qltb 0.12 (nth 2 features 0)); [exfalso; apply H4; reflexivity |]);
    cbn [andb];
    destruct (Qltb (np_mean_float64 (firstn 5 features)) 0.1) eqn:Em;
    destruct (Qltb 0.4 (nth 5 features 0)) eqn:E5;
      try (exfalso; apply H5; split; congruence); reflexivity. }
  split; [exact Hrun |].
  intros label. split.
  - intros Hin. apply In_nth_error in Hin. destruct Hin as [k Hk].
    assert (Hlt : (k < List.length CLASSES)%nat).
    { apply nth_error_Some. congruence. }
    exists (fun _ => N.of_nat k), k. rewrite Hrun. split.
    + unfold below, rng_head. rewrite N.mod_small by lia.
      rewrite Nat2N.id. reflexivity.
    + unfold getitem. rewrite Hk. reflexivity.
  - intros (g & idx & _ & Hget). unfold getitem in Hget.
    destruct (nth_error CLASSES idx) eqn:E; [| discriminate].
    injection Hget as <-. eapply nth_error_In; eassumption.
Qed.

(** *** The sample table *)

Lemma collect_predictions_pure (items : list pyval) :
  forall (acc : list sample) (w : World),
  exists r, forall g, collect_predictions items acc w g = (r, g).
Proof.
  induction items as [| item rest IH]; intros acc w.
  - exists (Ok acc). reflexivity.
  - cbn [collect_predictions]. unfold bind, lift, and_then, ret.
    destruct (py_in "prediction" item) as [[|] | e]; cbn.
    + destruct (py_in "confidence" item) as [[|] | e]; cbn.
      * destruct (py_getitem item "prediction") as [p | e]; cbn.
        -- destruct (py_getitem item "confidence") as [c | e]; cbn.
           ++ destruct (py_float c) as [q | e]; cbn.
              ** apply IH.
              ** exists (Raise e). reflexivity.
           ++ exists (Raise e). reflexivity.
        -- exists (Raise e). reflexivity.
      * apply IH.
      * exists (Raise e). reflexivity.
    + apply IH.
    + exists (Raise e). reflexivity.
Qed.

Lemma read_predictions_pure (file : string) (w : World) :
  exists r, forall g, read_predictions file w g = (r, g).
Proof.
  unfold read_predictions, bind, ask, lift.
  destruct (json_load_file w file) as [results | e].
  - destruct (py_iter results) as [items | e].
    + apply collect_predictions_pure.
    + exists (Raise e). reflexivity.
  - exists (Raise e). reflexivity.
Qed.

Lemma candidate_cases (w : World) (file : string) :
  passed_over w file \/ exists table, loads w file table.
Proof.
  unfold passed_over, loads.
  destruct (os_path_exists w file) eqn:Hex; [| auto].
  destruct (read_predictions_pure file w) as [[[| p ps] | e] Hr].
  - left. auto.
  - right. exists (p :: ps). repeat split; [discriminate | exact Hr].
  - left. right. left. exists e. exact Hr.
Qed.

Lemma scan_passed_over (w : World) (file : string) (rest : list string)
      (acc : list sample) (g : rng) :
  passed_over w file ->
  scan_locations (file :: rest) acc w g = scan_locations rest acc w g.
Proof.
  intros Hp. cbn [scan_locations]. unfold bind at 1, ask.
  destruct Hp as [Hex | [[e He] | Hempty]].
  - rewrite Hex. reflexivity.
  - destruct (os_path_exists w file); [| reflexivity].
    unfold bind, try_except, ret. rewrite He. reflexivity.
  - destruct (os_path_exists w file); [| reflexivity].
    unfold bind, try_except, ret. rewrite Hempty. reflexivity.
Qed.

Lemma scan_loads (w : World) (file : string) (rest : list string)
      (acc table : list sample) (g : rng) :
  loads w file table ->
  scan_locations (file :: rest) acc w g = (Ok table, g).
Proof.
  intros (Hex & Hne & Hr). cbn [scan_locations]. unfold bind at 1, ask.
  rewrite Hex. unfold bind, try_except, ret. rewrite Hr.
  destruct table; [congruence | reflexivity].
Qed.

Lemma scan_locations_total (w : World) (locations : list string) :
  forall acc, acc <> [] ->
  exists table, table <> [] /\ forall g, scan_locations locations acc w g = (Ok table, g).
Proof.
  induction locations as [| file rest IH]; intros acc Hacc.
  - exists acc. split; [assumption | reflexivity].
  - destruct (candidate_cases w file) as [Hp | [table Hl]].
    + destruct (IH acc Hacc) as (table & Hne & Hrun).
      exists table. split; [assumption |].
      intros g. rewrite scan_passed_over by assumption. apply Hrun.
    + exists table. split; [apply Hl |].
      intros g. apply scan_loads. assumption.
Qed.

(** [load_sample_predictions] returns, never an empty table, and touches
    neither the generator nor anything else. *)
Lemma load_sample_predictions_total (w : World) :
  exists table, table <> []
                /\ forall g, load_sample_predictions w g = (Ok table, g).
Proof. apply scan_locations_total. discriminate. Qed.

(** C7 (amended): [load_sample_predictions] returns the built-in five-entry
    table when every candidate is passed over (it does not exist, fails to
    parse, or yields no valid entry); otherwise it returns the predictions of
    the first candidate, in the fixed order, that exists, parses and yields at
    least one valid entry; candidates before it that exist but fail are
    skipped. *)
Theorem sample_table_resolution (w : World) (g : rng) :
  exists table,
    load_sample_predictions w g = (Ok table, g)
    /\ ((forall file, In file possible_locations -> passed_over w file) ->
        table = builtin_predictions /\ List.length table = 5%nat)
    /\ (forall before file after loaded,
          possible_locations = (before ++ file :: after)%list ->
          (forall earlier, In earlier before -> passed_over w earlier) ->
          loads w file loaded ->
          table = loaded).
Proof.
  assert (Hscan : forall before rest acc,
            (forall earlier, In earlier before -> passed_over w earlier) ->
            scan_locations (before ++ rest)%list acc w g = scan_locations rest acc w g).
  { induction before as [| file before IH]; intros rest acc Hb; [reflexivity |].
    cbn [app]. rewrite scan_passed_over by (apply Hb; left; reflexivity).
    apply IH. intros earlier Hin. apply Hb. right. assumption. }
  destruct (load_sample_predictions_total w) as (table & _ & Hrun).
  exists table. split; [apply Hrun | split].
  - intros Hall. specialize (Hrun g). unfold load_sample_predictions in Hrun.
    rewrite <- (app_nil_r possible_locations) in Hrun.
    rewrite Hscan in Hrun by assumption. cbn in Hrun.
    injection Hrun as <-. split; reflexivity.
  - intros before file after loaded Hsplit Hbefore Hloads.
    specialize (Hrun g). unfold load_sample_predictions in Hrun.
    rewrite Hsplit, Hscan in Hrun by assumption.
    rewrite (scan_loads w file after builtin_predictions loaded g Hloads) in Hrun.
    congruence.
Qed.

(** *** Bounds of the NumPy reductions *)

Lemma Q_of_nat_pos (n : nat) : (0 < n)%nat -> (0 < Q_of_nat n)%Q.
Proof.
  intros Hn. unfold Q_of_nat. change 0%Q with (inject_Z 0).
  rewrite <- Zlt_Qlt. lia.
Qed.

Lemma Q_of_nat_le (m n : nat) : (m <= n)%nat -> (Q_of_nat m <= Q_of_nat n)%Q.
Proof. intros H. unfold Q_of_nat. rewrite <- Zle_Qle. lia. Qed.

Lemma Q_of_nat_S (n : nat) : (Q_of_nat (S n) == Q_of_nat n + 1)%Q.
Proof.
  unfold Q_of_nat. rewrite Nat2Z.inj_succ, <- Z.add_1_r, inject_Z_plus.
  reflexivity.
Qed.

Lemma np_sum_bounds (a b : Q) (l : list Q) :
  Forall (fun x => a <= x /\ x <= b)%Q l ->
  (a * Q_of_nat (List.length l) <= np_sum l
   /\ np_sum l <= b * Q_of_nat (List.length l))%Q.
Proof.
  induction 1 as [| x l [Hax Hxb] _ [IHa IHb]].
  - change (np_sum []) with 0%Q. change (Q_of_nat (List.length (@nil Q))) with 0%Q.
    split; lra.
  - cbn [np_sum fold_right List.length]. fold (np_sum l).
    rewrite Q_of_nat_S. split; lra.
Qed.

Lemma np_mean_bounds (a b : Q) (l : list Q) :
  l <> [] ->
  Forall (fun x => a <= x /\ x <= b)%Q l ->
  (a <= np_mean l /\ np_mean l <= b)%Q.
Proof.
  intros Hne Hall. destruct (np_sum_bounds a b l Hall) as [Ha Hb].
  assert (Hpos : (0 < Q_of_nat (List.length l))%Q).
  { apply Q_of_nat_pos. destruct l; [congruence | cbn; lia]. }
  unfold np_mean. fold (Q_of_nat (List.length l)). split.
  - apply Qle_shift_div_l; assumption.
  - apply Qle_shift_div_r; assumption.
Qed.

Lemma np_max_spec (l : list Q) :
  l <> [] ->
  exists m, np_max l = Ok m /\ In m l /\ Forall (fun x => x <= m)%Q l.
Proof.
  destruct l as [| x rest]; [congruence | intros _].
  cbn [np_max]. eexists. split; [reflexivity |].
  revert x. induction rest as [| y rest IH]; intros x.
  - cbn. split; [auto |]. constructor; [lra | constructor].
  - cbn [fold_left]. destruct (Qltb x y) eqn:E.
    + destruct (IH y) as [Hin Hall]. split.
      * destruct Hin as [<- | Hin]; cbn; auto.
      * apply Qltb_lt in E. inversion Hall as [| ? ? Hy Hrest]; subst.
        constructor; [lra | constructor; assumption].
    + destruct (IH x) as [Hin Hall]. split.
      * destruct Hin as [<- | Hin]; cbn; auto.
      * apply Qltb_ge in E. inversion Hall as [| ? ? Hx Hrest]; subst.
        constructor; [assumption | constructor; [lra | assumption]].
Qed.

Lemma insert_sorted_Forall (P : Q -> Prop) (x : Q) (l : list Q) :
  P x -> Forall P l -> Forall P (insert_sorted x l).
Proof.
  intros Hx. induction 1 as [| y l Hy Hl IH]; cbn.
  - constructor; [assumption | constructor].
  - destruct (Qle_bool x y); repeat (constructor; try assumption).
Qed.

Lemma np_sort_Forall (P : Q -> Prop) (l : list Q) :
  Forall P l -> Forall P (np_sort l).
Proof.
  induction 1 as [| x l Hx Hl IH]; cbn; [constructor |].
  apply insert_sorted_Forall; assumption.
Qed.

Lemma nth_unit_interval (l : list Q) (i : nat) :
  Forall unit_interval l -> unit_interval (nth i l 0%Q).
Proof.
  intros Hall. destruct (Nat.lt_ge_cases i (List.length l)) as [Hlt | Hge].
  - apply Forall_nth; assumption.
  - rewrite nth_overflow by assumption. split; lra.
Qed.

Lemma np_percentile_bounds (l : list Q) :
  Forall unit_interval l -> unit_interval (np_percentile l 90).
Proof.
  intros Hall. unfold np_percentile.
  set (virtual := (inject_Z (Z.of_nat (List.length l - 1)) * (90 / 100))%Q).
  assert (Hv : (0 <= virtual)%Q).
  { subst virtual.
    assert (0 <= inject_Z (Z.of_nat (List.length l - 1)))%Q.
    { change 0%Q with (inject_Z 0). rewrite <- Zle_Qle. lia. }
    assert (Hq : (90 / 100 == 9 # 10)%Q) by reflexivity.
    rewrite Hq. lra. }
  assert (Hfl : (0 <= Qfloor virtual)%Z).
  { change 0%Z with (Qfloor 0). apply Qfloor_resp_le. assumption. }
  rewrite Z2Nat.id by assumption.
  pose proof (Qfloor_le virtual) as Hlo.
  pose proof (Qlt_floor virtual) as Hhi.
  rewrite inject_Z_plus in Hhi. change (inject_Z 1) with 1%Q in Hhi.
  set (gamma := (virtual - inject_Z (Qfloor virtual))%Q).
  assert (Hg : (0 <= gamma)%Q /\ (gamma <= 1)%Q) by (subst gamma; split; lra).
  pose proof (np_sort_Forall unit_interval l Hall) as Hsorted.
  destruct (nth_unit_interval _ (Z.to_nat (Qfloor virtual)) Hsorted) as [? ?].
  destruct (nth_unit_interval _
              (Nat.min (Z.to_nat (Qfloor virtual) + 1) (List.length l - 1))
              Hsorted) as [? ?].
  destruct Hg. split; nra.
Qed.

Lemma cells_length {A : Type} (g : grid A) :
  List.length (cells g) = (height g * width g)%nat.
Proof.
  unfold cells.
  rewrite (flat_map_constant_length (c := width g)).
  - rewrite length_seq. reflexivity.
  - intros i _. rewrite length_map, length_seq. reflexivity.
Qed.

Lemma not_empty_cells {A : Type} (g : grid A) :
  is_empty g = false -> (0 < List.length (cells g))%nat.
Proof.
  unfold is_empty. rewrite cells_length. intros H.
  apply orb_false_iff in H. destruct H as [Hh Hw].
  apply Nat.eqb_neq in Hh, Hw. nia.
Qed.

(** *** Feature extraction *)

Lemma ratio_unit_interval (count total : nat) :
  (count <= total)%nat -> (0 < total)%nat ->
  unit_interval (Q_of_nat count / Q_of_nat total).
Proof.
  intros Hle Hpos. pose proof (Q_of_nat_pos total Hpos) as Ht.
  pose proof (Q_of_nat_le count total Hle) as Hc.
  pose proof (Q_of_nat_le 0 count (Nat.le_0_l count)) as H0.
  change (Q_of_nat 0) with 0%Q in H0.
  split.
  - apply Qle_shift_div_l; [assumption | lra].
  - apply Qle_shift_div_r; [assumption | lra].
Qed.

Lemma channel_mean_unit_interval (i : nat) (hsv : image) :
  is_empty hsv = false ->
  unit_interval
    (np_mean (map (fun p => Q_of_N (u8 (channel i p))) (cells hsv)) / 255).
Proof.
  intros Hne.
  destruct (np_mean_bounds 0 255
              (map (fun p => Q_of_N (u8 (channel i p))) (cells hsv)))
    as [Hlo Hhi].
  - pose proof (not_empty_cells hsv Hne) as Hlen.
    destruct (cells hsv); [cbn in Hlen; lia | discriminate].
  - apply Forall_forall. intros x Hx. apply in_map_iff in Hx.
    destruct Hx as (p & <- & _).
    pose proof (u8_range (channel i p)) as Hr. apply N.ltb_lt in Hr.
    unfold Q_of_N. change 0%Q with (inject_Z 0). change 255%Q with (inject_Z 255).
    rewrite <- !Zle_Qle. lia.
  - split.
    + apply Qle_shift_div_l; [reflexivity | lra].
    + apply Qle_shift_div_r; [reflexivity | lra].
Qed.

Lemma extract_color_features_run (img : image) (w : World) (g : rng) :
  is_empty img = false ->
  exists ratios means,
    extract_color_features img w g = (Ok (ratios ++ means)%list, g)
    /\ List.length ratios = 5%nat
    /\ List.length means = 3%nat
    /\ Forall unit_interval (ratios ++ means)%list.
Proof.
  intros Hne. unfold extract_color_features, bind, cvtColor, ret.
  rewrite Hne. do 2 eexists. split; [reflexivity | split; [| split]].
  - rewrite length_map. reflexivity.
  - rewrite length_map, length_seq. reflexivity.
  - apply Forall_app. split; apply Forall_forall; intros x Hx;
      apply in_map_iff in Hx.
    + destruct Hx as ([name [lower upper]] & <- & _).
      apply ratio_unit_interval.
      * unfold count_positive.
        etransitivity; [apply filter_length_le |].
        rewrite cells_length. cbn. reflexivity.
      * rewrite <- cells_length. apply not_empty_cells. assumption.
    + destruct Hx as (i & <- & _).
      apply channel_mean_unit_interval. exact Hne.
Qed.

Lemma extract_texture_features_returns (img : image) (w : World) (g : rng) :
  is_empty img = false ->
  exists texture,
    extract_texture_features img w g = (Ok texture, g)
    /\ List.length texture = 3%nat.
Proof.
  intros Hne. unfold extract_texture_features, bind, cvtColor, ret, lift.
  rewrite Hne.
  set (gray := grid_map COLOR_RGB2GRAY img).
  set (mags := map _ (combine (cells (cv2_Sobel gray 1 0))
                              (cells (cv2_Sobel gray 0 1)))).
  destruct (np_max_spec mags) as (mx & Hmx & _).
  { assert (Hlen : (0 < List.length mags)%nat).
    { subst mags. rewrite length_map, length_combine, !cells_length. cbn.
      pose proof (not_empty_cells img Hne) as H. rewrite cells_length in H. lia. }
    destruct mags; [cbn in Hlen; lia | discriminate]. }
  rewrite Hmx. eexists. split; reflexivity.
Qed.

Lemma extract_features_returns (img : image) (w : World) (g : rng) :
  is_empty img = false ->
  exists color texture,
    extract_color_features img w g = (Ok color, g)
    /\ extract_texture_features img w g = (Ok texture, g)
    /\ extract_features img w g = (Ok (color ++ texture)%list, g)
    /\ List.length color = 8%nat
    /\ List.length texture = 3%nat.
Proof.
  intros Hne.
  destruct (extract_color_features_run img w g Hne)
    as (ratios & means & Hc & Hlr & Hlm & _).
  destruct (extract_texture_features_returns img w g Hne) as (texture & Ht & Hlt).
  exists (ratios ++ means)%list, texture. repeat split; try assumption.
  - unfold extract_features, bind, ret. rewrite Hc, Ht. reflexivity.
  - rewrite length_app, Hlr, Hlm. reflexivity.
Qed.

(** An empty array is refused by the first conversion of each extractor. *)
Lemma extract_features_empty (img : image) (w : World) (g : rng) :
  is_empty img = true ->
  extract_color_features img w g = (Raise cv2_error, g)
  /\ extract_texture_features img w g = (Raise cv2_error, g)
  /\ extract_features img w g = (Raise cv2_error, g).
Proof.
  intros He.
  assert (Hc : extract_color_features img w g = (Raise cv2_error, g)).
  { unfold extract_color_features, bind, cvtColor, raise. rewrite He. reflexivity. }
  assert (Ht : extract_texture_features img w g = (Raise cv2_error, g)).
  { unfold extract_texture_features, bind, cvtColor, raise. rewrite He. reflexivity. }
  repeat split; try assumption.
  unfold extract_features, bind. rewrite Hc. reflexivity.
Qed.

Lemma normalized_unit_interval (mags : list Q) (mx : Q) :
  Forall (fun v => 0 <= v)%Q mags ->
  In mx mags ->
  Forall (fun v => v <= mx)%Q mags ->
  Forall unit_interval
    (if Qgtb mx 0 then map (fun v => (v / mx)%Q) mags else mags).
Proof.
  intros Hpos Hin Hmax. rewrite Forall_forall in Hpos, Hmax.
  destruct (Qgtb mx 0) eqn:E; apply Forall_forall.
  - apply Qltb_lt in E. intros x Hx. apply in_map_iff in Hx.
    destruct Hx as (v & <- & Hv). split.
    + apply Qle_shift_div_l; [assumption |]. specialize (Hpos v Hv). lra.
    + apply Qle_shift_div_r; [assumption |]. specialize (Hmax v Hv). lra.
  - apply Qltb_ge in E. intros v Hv.
    specialize (Hpos v Hv). specialize (Hmax v Hv). split; lra.
Qed.

Lemma squared_deviation_unit_interval (v mean : Q) :
  unit_interval v -> unit_interval mean ->
  unit_interval (Qabs (v - mean) * Qabs (v - mean)).
Proof.
  intros [Hv0 Hv1] [Hm0 Hm1].
  pose proof (Qabs_nonneg (v - mean)) as Hnn.
  assert (Hle : (Qabs (v - mean) <= 1)%Q).
  { apply Qabs_Qle_condition. split; lra. }
  split; nra.
Qed.

Lemma extract_texture_features_run (img : image) (w : World) (g : rng) :
  is_empty img = false ->
  exists texture,
    extract_texture_features img w g = (Ok texture, g)
    /\ List.length texture = 3%nat
    /\ Forall unit_interval texture.
Proof.
  intros Hne. unfold extract_texture_features, bind, cvtColor, ret, lift.
  rewrite Hne.
  set (gray := grid_map COLOR_RGB2GRAY img).
  set (mags := map _ (combine (cells (cv2_Sobel gray 1 0))
                              (cells (cv2_Sobel gray 0 1)))).
  assert (Hlen : (0 < List.length mags)%nat).
  { subst mags. rewrite length_map, length_combine, !cells_length. cbn.
    pose proof (not_empty_cells img Hne) as H. rewrite cells_length in H. lia. }
  assert (Hpos : Forall (fun v => 0 <= v)%Q mags).
  { subst mags. apply Forall_forall. intros x Hx. apply in_map_iff in Hx.
    destruct Hx as ([a b] & <- & _). apply np_sqrt_nonneg. cbn [fst snd]. nra. }
  destruct (np_max_spec mags) as (mx & Hmx & Hin & Hmax).
  { destruct mags; [cbn in Hlen; lia | discriminate]. }
  rewrite Hmx.
  pose proof (normalized_unit_interval mags mx Hpos Hin Hmax) as Hunit.
  set (normalized := if Qgtb mx 0 then map (fun v => (v / mx)%Q) mags else mags) in *.
  assert (Hnn : normalized <> []).
  { subst normalized. destruct (Qgtb mx 0); destruct mags;
      cbn in Hlen |- *; try lia; discriminate. }
  assert (Hmean : unit_interval (np_mean normalized)).
  { apply np_mean_bounds; assumption. }
  eexists. split; [reflexivity | split; [reflexivity |]].
  repeat constructor.
  - apply Hmean.
  - apply Hmean.
  - apply np_sqrt_nonneg.
    apply np_mean_bounds with (b := 1%Q).
    + destruct normalized; [congruence | discriminate].
    + apply Forall_forall. intros x Hx. apply in_map_iff in Hx.
      destruct Hx as (v & <- & Hv).
      apply squared_deviation_unit_interval; [| assumption].
      exact (proj1 (Forall_forall _ _) Hunit v Hv).
  - apply np_sqrt_unit; apply np_mean_bounds with (a := 0%Q) (b := 1%Q);
      try (destruct normalized; [congruence | discriminate]);
      apply Forall_forall; intros x Hx; apply in_map_iff in Hx;
      destruct Hx as (v & <- & Hv);
      (apply squared_deviation_unit_interval; [| assumption]);
      exact (proj1 (Forall_forall _ _) Hunit v Hv).
  - apply np_percentile_bounds. assumption.
  - apply np_percentile_bounds. assumption.
Qed.

(** C5: on every non-empty image the extractor returns 11 numbers: five
    colour-indicator ratios and three channel means from
    [extract_color_features], three texture statistics from
    [extract_texture_features], and each of the 11 lies in [[0, 1]]. *)
Theorem feature_vector_bounds (img : image) (w : World) (g : rng) :
  is_empty img = false ->
  exists ratios means texture,
    extract_color_features img w g = (Ok (ratios ++ means)%list, g)
    /\ extract_texture_features img w g = (Ok texture, g)
    /\ extract_features img w g = (Ok ((ratios ++ means) ++ texture)%list, g)
    /\ List.length ratios = 5%nat
    /\ List.length means = 3%nat
    /\ List.length texture = 3%nat
    /\ List.length ((ratios ++ means) ++ texture)%list = 11%nat
    /\ Forall unit_interval ((ratios ++ means) ++ texture)%list.
Proof.
  intros Hne.
  destruct (extract_color_features_run img w g Hne)
    as (ratios & means & Hc & Hlr & Hlm & Hcu).
  destruct (extract_texture_features_run img w g Hne) as (texture & Ht & Hlt & Htu).
  exists ratios, means, texture. repeat split; try assumption.
  - unfold extract_features, bind, ret. rewrite Hc, Ht. reflexivity.
  - rewrite !length_app, Hlr, Hlm, Hlt. reflexivity.
  - destruct (proj1 (Forall_app _ _ _) Hcu) as [Hr Hm].
    repeat (apply Forall_app; split); assumption.
Qed.

Lemma extract_color_features_pure (img : image) :
  exists r, forall w g, extract_color_features img w g = (r, g).
Proof.
  unfold extract_color_features, bind, cvtColor, ret, raise.
  destruct (is_empty img); eexists; intros w g; reflexivity.
Qed.

Lemma extract_texture_features_pure (img : image) :
  exists r, forall w g, extract_texture_features img w g = (r, g).
Proof.
  unfold extract_texture_features, bind, cvtColor, ret, raise, lift.
  destruct (is_empty img); [eexists; intros w g; reflexivity |].
  match goal with
  | |- context [np_max ?l] => destruct (np_max l)
  end; eexists; intros w g; reflexivity.
Qed.

(** C8: the feature vector is a function of the image alone: one result
    (a vector, or the refusal of an empty image) is what
    [extract_color_features], [extract_texture_features] and their
    concatenation give in every world and at every state of the random
    generator, and the generator is left as it was. *)
Theorem extraction_deterministic (img : image) :
  exists color texture features,
    forall (w : World) (g : rng),
      extract_color_features img w g = (color, g)
      /\ extract_texture_features img w g = (texture, g)
      /\ extract_features img w g = (features, g).
Proof.
  destruct (extract_color_features_pure img) as [color Hc].
  destruct (extract_texture_features_pure img) as [texture Ht].
  exists color, texture.
  exists (match color, texture with
          | Ok c, Ok t => Ok (c ++ t)%list
          | Ok _, Raise e => Raise e
          | Raise e, _ => Raise e
          end).
  intros w g. split; [apply Hc | split; [apply Ht |]].
  unfold extract_features, bind, ret. rewrite Hc.
  destruct color as [c | e]; [| reflexivity].
  rewrite Ht. destruct texture; reflexivity.
Qed.

(** *** Detection *)

Lemma preprocess_image_run (path : string) (w : World) (g : rng) :
  preprocess_image path w g =
    match cv2_imread w path with
    | None => (Raise ValueError, g)
    | Some raw =>
        if is_empty raw then (Raise cv2_error, g) else (Ok (preprocessed raw), g)
    end.
Proof.
  unfold preprocess_image, try_except, bind, ask, cv2_resize, cvtColor, raise, ret.
  destruct (cv2_imread w path) as [raw |]; [| reflexivity].
  destruct (is_empty raw); reflexivity.
Qed.

Lemma preprocessed_not_empty (raw : image) : is_empty (preprocessed raw) = false.
Proof. reflexivity. Qed.

Lemma classifier_returns (features : list Q) (w : World) (g : rng) :
  List.length features = 11%nat ->
  exists idx g' label,
    simple_disease_classifier features w g = (Ok idx, g')
    /\ (idx < List.length CLASSES)%nat
    /\ getitem CLASSES idx = Ok label
    /\ In label CLASSES.
Proof.
  intros Hlen.
  assert (Hdone : forall idx g', (idx < List.length CLASSES)%nat ->
            simple_disease_classifier features w g = (Ok idx, g') ->
            exists idx g' label,
              simple_disease_classifier features w g = (Ok idx, g')
              /\ (idx < List.length CLASSES)%nat
              /\ getitem CLASSES idx = Ok label
              /\ In label CLASSES).
  { intros idx g' Hidx Hrun.
    destruct (getitem_lt CLASSES idx Hidx) as (label & Hl & Hin).
    exists idx, g', label. auto. }
  pose proof (classifier_cascade features w g Hlen) as Hc.
  destruct (Qgtb (nth 0 features 0) 0.15 && Qgtb (nth 9 features 0) 0.2).
  { eapply Hdone; [| exact Hc].
    destruct (Qgtb (unit_float (rng_head g)) 0.5); cbn; lia. }
  destruct (Qgtb (nth 1 features 0) 0.2).
  { eapply Hdone; [| exact Hc]. cbn; lia. }
  destruct (Qgtb (nth 3 features 0) 0.1).
  { eapply Hdone; [| exact Hc]. cbn; lia. }
  destruct (Qgtb (nth 2 features 0) 0.12).
  { eapply Hdone; [| exact Hc]. cbn; lia. }
  destruct (Qltb (np_mean_float64 (firstn 5 features)) 0.1 && Qgtb (nth 5 features 0) 0.4).
  - destruct (random_choice_spec healthy_indices w g) as (idx & Hrun & _ & Hin);
      [discriminate |].
    eapply Hdone; [| rewrite Hc; exact Hrun].
    exact (proj1 (Forall_forall _ _) healthy_indices_valid idx Hin).
  - eapply Hdone; [| exact Hc]. apply below_lt. cbn; lia.
Qed.

Lemma classify_with_confidence_run (features : list Q) (w : World) (g : rng) :
  List.length features = 11%nat ->
  exists label confidence g',
    classify_with_confidence features w g = (Ok (PStr label, confidence), g')
    /\ In label CLASSES
    /\ confidence_in_range label confidence.
Proof.
  intros Hlen.
  destruct (classifier_returns features w g Hlen)
    as (idx & g1 & label & Hrun & _ & Hlabel & Hin).
  pose proof (unit_float_range (rng_head g1)) as [Hr0 Hr1].
  unfold classify_with_confidence, bind, lift. rewrite Hrun, Hlabel.
  unfold confidence_in_range.
  destruct (str_contains "Healthy" label) eqn:Hh;
    unfold random_uniform, bind, random_random, ret;
    do 3 eexists; (split; [reflexivity | split; [exact Hin |]]);
    rewrite ?Hh; split; lra.
Qed.

(** The three ways through [detect_disease]: the handler's fallback when the
    image does not load, the sample substitution when the first draw is below
    0.3, the classifier otherwise. *)
Lemma detect_disease_run (path : string) (w : World) (g : rng) :
  exists table,
    table <> []
    /\ (forall g0, load_sample_predictions w g0 = (Ok table, g0))
    /\ match cv2_imread w path with
       | None => picked table g (detect_disease path w g)
       | Some raw =>
           if is_empty raw then picked table g (detect_disease path w g)
           else if Qltb (unit_float (rng_head g)) 0.3
           then picked table (rng_tail g) (detect_disease path w g)
           else classified (detect_disease path w g)
       end.
Proof.
  destruct (load_sample_predictions_total w) as (table & Hne & Hload).
  exists table. split; [assumption | split; [assumption |]].
  assert (Hfallback : forall e,
            preprocess_image path w g = (Raise e, g) ->
            picked table g (detect_disease path w g)).
  { intros e He.
    destruct (random_choice_spec table w g Hne) as (entry & Hrun & Hget & Hin).
    exists entry. split; [assumption | split; [assumption |]].
    unfold detect_disease, try_except, fallback_prediction, bind. rewrite He, Hload. exact Hrun. }
  pose proof (preprocess_image_run path w g) as Hpre.
  destruct (cv2_imread w path) as [raw |]; [| eapply Hfallback; eassumption].
  destruct (is_empty raw); [eapply Hfallback; eassumption |].
  destruct (extract_features_returns (preprocessed raw) w g
              (preprocessed_not_empty raw))
    as (color & texture & _ & _ & Hfeat & Hlc & Hlt).
  assert (Hlen : List.length (color ++ texture)%list = 11%nat).
  { rewrite length_app, Hlc, Hlt. reflexivity. }
  destruct (Qltb (unit_float (rng_head g)) 0.3) eqn:Hdraw.
  - destruct (random_choice_spec table w (rng_tail g) Hne)
      as (entry & Hrun & Hget & Hin).
    exists entry. split; [assumption | split; [assumption |]].
    unfold detect_disease, try_except, fallback_prediction, bind.
    rewrite Hpre, Hfeat, Hload. unfold random_random at 1. cbv beta iota.
    rewrite Hdraw. destruct table; [congruence |]. cbn [nonempty andb].
    rewrite Hrun. reflexivity.
  - destruct (classify_with_confidence_run (color ++ texture)%list w (rng_tail g) Hlen)
      as (label & confidence & g' & Hrun & Hin & Hrange).
    exists label, confidence, g'. split; [| split; assumption].
    unfold detect_disease, try_except, fallback_prediction, bind.
    rewrite Hpre, Hfeat, Hload. unfold random_random at 1. cbv beta iota.
    rewrite Hdraw. cbn [andb]. rewrite Hrun. reflexivity.
Qed.

(** C10: on every 11-element feature vector the classifier returns, and the
    index it returns is a position of [CLASSES] (between 0 and
    [len(CLASSES) - 1], the literal 38 of the healthy branch included), so the
    lookup [CLASSES[predicted_class_index]] of [detect_disease] succeeds. *)
Theorem classifier_index_valid (features : list Q) (w : World) (g : rng) :
  List.length features = 11%nat ->
  exists idx g' label,
    simple_disease_classifier features w g = (Ok idx, g')
    /\ (0 <= idx <= List.length CLASSES - 1)%nat
    /\ getitem CLASSES idx = Ok label.
Proof.
  intros Hlen.
  destruct (classifier_returns features w g Hlen)
    as (idx & g' & label & Hrun & Hidx & Hlabel & _).
  exists idx, g', label. repeat split; try assumption; lia.
Qed.

(** C1 (amended): every call of [detect_disease] returns a pair.  When the
    image loads and the first draw is not below 0.3 (the classifier branch),
    the label is a member of [CLASSES] and the confidence lies strictly
    between 0 and 1.  On the sample-substitution branch and in the error
    fallback the pair is an entry of the table that
    [load_sample_predictions] returns, as that table holds it. *)
Theorem detection_result_invariant (path : string) (w : World) (g : rng) :
  exists table result g',
    (forall g0, load_sample_predictions w g0 = (Ok table, g0))
    /\ detect_disease path w g = (Ok result, g')
    /\ match cv2_imread w path with
       | None => In result table
       | Some raw =>
           if is_empty raw || Qltb (unit_float (rng_head g)) 0.3
           then In result table
           else exists label,
                  fst result = PStr label
                  /\ In label CLASSES
                  /\ (0 < snd result)%Q /\ (snd result < 1)%Q
       end.
Proof.
  destruct (detect_disease_run path w g) as (table & _ & Hload & Hrun).
  exists table.
  assert (Hpicked : forall g1, picked table g1 (detect_disease path w g) ->
            exists result g',
              detect_disease path w g = (Ok result, g') /\ In result table).
  { intros g1 (entry & _ & Hin & Heq). eauto. }
  destruct (cv2_imread w path) as [raw |].
  - destruct (is_empty raw); cbn [orb].
    + destruct (Hpicked _ Hrun) as (result & g' & Heq & Hin).
      exists result, g'. auto.
    + destruct (Qltb (unit_float (rng_head g)) 0.3).
      * destruct (Hpicked _ Hrun) as (result & g' & Heq & Hin).
        exists result, g'. auto.
      * destruct Hrun as (label & confidence & g' & Heq & Hin & Hrange).
        exists (PStr label, confidence), g'.
        split; [assumption | split; [assumption |]].
        exists label. cbn [fst snd]. split; [reflexivity | split; [assumption |]].
        unfold confidence_in_range in Hrange.
        destruct (str_contains "Healthy" label); destruct Hrange; split; lra.
  - destruct (Hpicked _ Hrun) as (result & g' & Heq & Hin).
    exists result, g'. auto.
Qed.

(** C2 (amended): when the image cannot be loaded, [preprocess_image] raises
    [ValueError] to its caller, and [detect_disease], which calls it inside
    its [try], recovers as from any other exception: whatever the guarded
    body raises, the handler returns [random.choice] of the table of
    [load_sample_predictions].  [detect_disease] itself never raises. *)
Theorem detection_recovers_from_errors (path : string) (w : World) (g : rng) :
  exists table,
    table <> []
    /\ (forall g0, load_sample_predictions w g0 = (Ok table, g0))
    /\ (exists result g', detect_disease path w g = (Ok result, g'))
    /\ (forall (body : M sample) e g1,
          body w g = (Raise e, g1) ->
          picked table g1 (try_except body fallback_prediction w g))
    /\ (forall e g1,
          preprocess_image path w g = (Raise e, g1) ->
          picked table g1 (detect_disease path w g))
    /\ (cv2_imread w path = None ->
        preprocess_image path w g = (Raise ValueError, g)).
Proof.
  destruct (detect_disease_run path w g) as (table & Hne & Hload & Hrun).
  exists table. split; [assumption | split; [assumption |]].
  pose proof (preprocess_image_run path w g) as Hpre.
  assert (Hpicked : forall g1, picked table g1 (detect_disease path w g) ->
            exists result g', detect_disease path w g = (Ok result, g')).
  { intros g1 (entry & _ & _ & Heq). eauto. }
  assert (Hhandler : forall (body : M sample) e g1,
            body w g = (Raise e, g1) ->
            picked table g1 (try_except body fallback_prediction w g)).
  { intros body e g1 Hbody.
    destruct (random_choice_spec table w g1 Hne) as (entry & Hchoice & Hget & Hin).
    exists entry. split; [assumption | split; [assumption |]].
    unfold try_except, fallback_prediction, bind. rewrite Hbody, Hload.
    exact Hchoice. }
  destruct (cv2_imread w path) as [raw |].
  - destruct (is_empty raw).
    + split; [eapply Hpicked; eassumption | split; [exact Hhandler |]].
      split; [| discriminate].
      intros e g1 He. rewrite Hpre in He. injection He as _ <-. assumption.
    + split; [| split; [exact Hhandler | split; [| discriminate]]].
      * destruct (Qltb (unit_float (rng_head g)) 0.3);
          [eapply Hpicked; eassumption |].
        destruct Hrun as (label & confidence & g' & Heq & _). eauto.
      * intros e g1 He. rewrite Hpre in He. discriminate.
  - split; [eapply Hpicked; eassumption | split; [exact Hhandler |]].
    split; [| intros _; assumption].
    intros e g1 He. rewrite Hpre in He. injection He as _ <-. assumption.
Qed.

(** C6 (amended): on a call where the image loads and the sample
    substitution is not taken (the first draw is not below 0.3), the label is
    resolved by the classifier, and the confidence lies in [[0.7, 0.95]] when
    the label contains ["Healthy"] and in [[0.6, 0.9]] otherwise. *)
Theorem classifier_branch_confidence
        (path : string) (w : World) (g : rng) (raw : image) :
  cv2_imread w path = Some raw ->
  is_empty raw = false ->
  (0.3 <= unit_float (rng_head g))%Q ->
  exists label confidence g',
    detect_disease path w g = (Ok (PStr label, confidence), g')
    /\ In label CLASSES
    /\ (if str_contains "Healthy" label
        then (0.7 <= confidence)%Q /\ (confidence <= 0.95)%Q
        else (0.6 <= confidence)%Q /\ (confidence <= 0.9)%Q).
Proof.
  intros Hread Hne Hdraw.
  destruct (detect_disease_run path w g) as (table & _ & _ & Hrun).
  rewrite Hread, Hne in Hrun. apply Qltb_ge in Hdraw. rewrite Hdraw in Hrun.
  exact Hrun.
Qed.

(** *** The classifier on vectors of any length *)

(** With at least ten elements every index the classifier reads exists, and
    it is the same cascade as on eleven. *)
Lemma classifier_cascade_long (features : list Q) (w : World) (g : rng) :
  (10 <= List.length features)%nat ->
  simple_disease_classifier features w g =
    if Qgtb (nth 0 features 0) 0.15 && Qgtb (nth 9 features 0) 0.2 then
      (Ok (if Qgtb (unit_float (rng_head g)) 0.5 then 1 else 0)%nat, rng_tail g)
    else if Qgtb (nth 1 features 0) 0.2 then (Ok 30%nat, g)
    else if Qgtb (nth 3 features 0) 0.1 then (Ok 6%nat, g)
    else if Qgtb (nth 2 features 0) 0.12 then (Ok 31%nat, g)
    else if Qltb (np_mean_float64 (firstn 5 features)) 0.1 && Qgtb (nth 5 features 0) 0.4
    then random_choice healthy_indices w g
    else (Ok (below (List.length CLASSES) (rng_head g)), rng_tail g).
Proof.
  intros Hlen.
  do 10 (destruct features as [| ? features]; [cbn in Hlen; lia |]).
  unfold simple_disease_classifier. step_M. cbn [nth].
  repeat match goal with
         | |- context [Qgtb ?a ?b] => destruct (Qgtb a b) eqn:?
         | |- context [Qltb ?a ?b] => destruct (Qltb a b) eqn:?
         end; cbn [andb]; try reflexivity.
Qed.

Lemma healthy_choice_valid (w : World) (g : rng) :
  index_or_IndexError (random_choice healthy_indices w g) g.
Proof.
  destruct (random_choice_spec healthy_indices w g) as (idx & Hrun & _ & Hin);
    [discriminate |].
  left. exists idx, (rng_tail g). split; [assumption |].
  exact (proj1 (Forall_forall _ _) healthy_indices_valid idx Hin).
Qed.

Ltac settle_run :=
  first
    [ right; reflexivity
    | apply healthy_choice_valid
    | left; do 2 eexists; split; [reflexivity |];
      first [ apply below_lt; cbn; lia
            | cbn; lia
            | match goal with
              | |- context [if ?b then _ else _] => destruct b; cbn; lia
              end ] ].

(** X1: on a feature vector of any length the classifier either returns a
    position of [CLASSES] or raises [IndexError] (a subscript beyond the
    vector) before it has drawn anything; with ten elements or more it always
    returns. *)
Theorem classifier_on_any_vector (features : list Q) (w : World) (g : rng) :
  index_or_IndexError (simple_disease_classifier features w g) g
  /\ ((10 <= List.length features)%nat ->
      exists idx g',
        simple_disease_classifier features w g = (Ok idx, g')
        /\ (idx < List.length CLASSES)%nat).
Proof.
  assert (Hlong : (10 <= List.length features)%nat ->
            exists idx g',
              simple_disease_classifier features w g = (Ok idx, g')
              /\ (idx < List.length CLASSES)%nat).
  { intros Hlen. rewrite (classifier_cascade_long features w g Hlen).
    repeat match goal with
           | |- context [if ?b then _ else _] =>
               lazymatch b with
               | Qgtb (unit_float _) _ => fail
               | _ => destruct b
               end
           end.
    - do 2 eexists. split; [reflexivity |].
      destruct (Qgtb (unit_float (rng_head g)) 0.5); cbn; lia.
    - do 2 eexists. split; [reflexivity | cbn; lia].
    - do 2 eexists. split; [reflexivity | cbn; lia].
    - do 2 eexists. split; [reflexivity | cbn; lia].
    - destruct (healthy_choice_valid w g) as [Hok | Hbad]; [exact Hok |].
      destruct (random_choice_spec healthy_indices w g) as (idx & Hrun & _);
        [discriminate | congruence].
    - do 2 eexists. split; [reflexivity | apply below_lt; cbn; lia]. }
  split; [| exact Hlong].
  destruct (Nat.le_gt_cases 10 (List.length features)) as [Hlen | Hshort].
  { left. apply Hlong. assumption. }
  do 10 (destruct features as [| ? features];
         [ unfold simple_disease_classifier; step_M;
           repeat match goal with
                  | |- context [Qgtb ?a ?b] => destruct (Qgtb a b) eqn:?
                  | |- context [Qltb ?a ?b] => destruct (Qltb a b) eqn:?
                  end; cbn [andb]; settle_run
         | ]).
  cbn in Hshort. lia.
Qed.

(** X2: the three fixed-label rules.  When rule 1 does not match, a yellow
    ratio above 0.2 gives [Tomato_Early_blight]; failing that, a white ratio
    above 0.1 gives [Cherry_Powdery_mildew], also when the black ratio is above
    0.12; failing both, a black ratio above 0.12 gives [Tomato_Late_blight].
    None of the three draws from the generator. *)
Theorem fixed_label_rules (features : list Q) (w : World) (g : rng) :
  (10 <= List.length features)%nat ->
  ~ rule1 features ->
  (rule2 features ->
   simple_disease_classifier features w g = (Ok 30%nat, g)
   /\ getitem CLASSES 30 = Ok "Tomato_Early_blight")
  /\ (~ rule2 features -> rule3 features ->
      simple_disease_classifier features w g = (Ok 6%nat, g)
      /\ getitem CLASSES 6 = Ok "Cherry_Powdery_mildew")
  /\ (~ rule2 features -> ~ rule3 features -> rule4 features ->
      simple_disease_classifier features w g = (Ok 31%nat, g)
      /\ getitem CLASSES 31 = Ok "Tomato_Late_blight").
Proof.
  intros Hlen H1.
  rewrite (classifier_cascade_long features w g Hlen).
  unfold rule1, rule2, rule3, rule4 in *. unfold Qgtb.
  rewrite <- !Qltb_lt in *.
  assert (Hno1 : Qltb 0.15 (nth 0 features 0) && Qltb 0.2 (nth 9 features 0) = false).
  { destruct (Qltb 0.15 (nth 0 features 0)); destruct (Qltb 0.2 (nth 9 features 0));
      try reflexivity. exfalso. apply H1. split; reflexivity. }
  rewrite Hno1.
  destruct (Qltb 0.2 (nth 1 features 0));
  destruct (Qltb 0.1 (nth 3 features 0));
  destruct (Qltb 0.12 (nth 2 features 0));
    repeat split; intros; try reflexivity; try congruence;
    exfalso; auto.
Qed.

(** Positions of [healthy_indices] and labels with ["Healthy"] are the same
    thing. *)
Lemma healthy_positions (idx : nat) (label : string) :
  getitem CLASSES idx = Ok label ->
  (In idx healthy_indices <-> str_contains "Healthy" label = true).
Proof.
  intros Hget.
  assert (Hlt : (idx < 39)%nat).
  { unfold getitem in Hget.
    destruct (nth_error CLASSES idx) eqn:E; [| discriminate].
    change 39%nat with (List.length CLASSES). apply nth_error_Some. congruence. }
  do 39 (destruct idx as [| idx];
         [ injection Hget as <-; vm_compute; split;
           [ intros H; first [ reflexivity
                             | exfalso; repeat destruct H as [H | H];
                               try discriminate H; exact H ]
           | intros H; first [ discriminate H | tauto ] ]
         | ]).
  lia.
Qed.

(** X3: [healthy_indices] lists exactly the positions of [CLASSES] whose label
    contains ["Healthy"]; so when rule 5 decides (rules 1 to 4 do not match,
    the binary64 mean of the five ratios, as [np.mean] returns it, is below
    0.1 and the mean hue above 0.4), the label the classifier picks contains
    ["Healthy"]. *)
Theorem healthy_rule_picks_healthy_label :
  (forall idx label,
     getitem CLASSES idx = Ok label ->
     (In idx healthy_indices <-> str_contains "Healthy" label = true))
  /\ forall features w g,
       (10 <= List.length features)%nat ->
       ~ rule1 features -> ~ rule2 features -> ~ rule3 features ->
       ~ rule4 features -> rule5 features ->
       exists idx label,
         simple_disease_classifier features w g = (Ok idx, rng_tail g)
         /\ getitem healthy_indices (below 12 (rng_head g)) = Ok idx
         /\ getitem CLASSES idx = Ok label
         /\ str_contains "Healthy" label = true.
Proof.
  split; [exact healthy_positions |].
  intros features w g Hlen H1 H2 H3 H4 [Hmean Hhue].
  rewrite (classifier_cascade_long features w g Hlen).
  unfold rule1, rule2, rule3, rule4 in *. unfold Qgtb.
  rewrite <- !Qltb_lt in *.
  assert (Hno1 : Qltb 0.15 (nth 0 features 0) && Qltb 0.2 (nth 9 features 0) = false).
  { destruct (Qltb 0.15 (nth 0 features 0)); destruct (Qltb 0.2 (nth 9 features 0));
      try reflexivity. exfalso. apply H1. split; reflexivity. }
  rewrite Hno1.
  destruct (Qltb 0.2 (nth 1 features 0)); [exfalso; auto |].
  destruct (Qltb 0.1 (nth 3 features 0)); [exfalso; auto |].
  destruct (Qltb 0.12 (nth 2 features 0)); [exfalso; auto |].
  rewrite Hmean, Hhue. cbn [andb].
  destruct (random_choice_spec healthy_indices w g) as (idx & Hrun & Hget & Hin);
    [discriminate |].
  assert (Hidx : (idx < List.length CLASSES)%nat)
    by exact (proj1 (Forall_forall _ _) healthy_indices_valid idx Hin).
  destruct (getitem_lt CLASSES idx Hidx) as (label & Hlabel & _).
  exists idx, label. repeat split; try assumption.
  apply (healthy_positions idx label Hlabel). assumption.
Qed.

(** *** Reading a sample file *)

Lemma dict_lookup_in (d : list (string * pyval)) (key : string) :
  py_in key (PDict d) = Ok (match dict_lookup d key with
                            | Some _ => true
                            | None => false
                            end).
Proof.
  unfold py_in, dict_lookup. f_equal.
  induction d as [| kv d IH]; [reflexivity |].
  cbn [existsb find]. destruct (String.eqb (fst kv) key); [reflexivity | exact IH].
Qed.

Lemma dict_lookup_getitem (d : list (string * pyval)) (key : string) (v : pyval) :
  dict_lookup d key = Some v -> py_getitem (PDict d) key = Ok v.
Proof.
  unfold py_getitem, dict_lookup.
  destruct (find (fun kv => String.eqb (fst kv) key) d) as [kv |];
    [| discriminate].
  cbn. intros H. injection H as <-. reflexivity.
Qed.

(** Below [2^53], [float] of a number raises nothing and returns it. *)
Lemma float_exact_converts (q : Q) :
  float_exact q -> py_float (PNum q) = Ok q.
Proof.
  intros Hq. cbn [py_float].
  assert (Hlt : Qltb (Qabs q) float_overflow = true).
  { apply Qltb_lt. apply Qle_lt_trans with (y := float_exact_bound); [exact Hq |].
    vm_compute. reflexivity. }
  rewrite Hlt. reflexivity.
Qed.

(** One turn of the loop on a plain item: skipped, or appended. *)
Lemma collect_plain_item (item : pyval) (rest : list pyval) (acc : list sample)
      (w : World) (g : rng) :
  plain_item item ->
  collect_predictions (item :: rest) acc w g =
    collect_predictions rest
      (match entry_of_item item with
       | Some entry => acc ++ [entry]
       | None => acc
       end)%list w g.
Proof.
  intros (d & -> & Hshape).
  cbn [collect_predictions entry_of_item]. unfold bind, lift, and_then, ret.
  rewrite !dict_lookup_in.
  destruct (dict_lookup d "prediction") as [p |] eqn:Hp; [| reflexivity].
  destruct (dict_lookup d "confidence") as [c |] eqn:Hc; [| reflexivity].
  destruct Hshape as [H | [H | (q & H & Hq)]]; try discriminate.
  injection H as ->.
  rewrite (dict_lookup_getitem d "prediction" p Hp).
  rewrite (dict_lookup_getitem d "confidence" (PNum q) Hc).
  rewrite (float_exact_converts q Hq).
  rewrite (proj2 (Qle_bool_iff _ _) Hq). reflexivity.
Qed.

Lemma collect_plain_items (items : list pyval) :
  Forall plain_item items ->
  forall (rest : list pyval) (acc : list sample) (w : World) (g : rng),
    collect_predictions (items ++ rest)%list acc w g =
    collect_predictions rest (acc ++ entries_of_items items)%list w g.
Proof.
  induction 1 as [| item items Hitem _ IH]; intros rest acc w g.
  - cbn. rewrite app_nil_r. reflexivity.
  - cbn [app entries_of_items]. rewrite collect_plain_item by assumption.
    rewrite IH. destruct (entry_of_item item) as [entry |]; [| reflexivity].
    rewrite <- app_assoc. reflexivity.
Qed.

Lemma entries_of_prediction_items (table : list sample) :
  Forall (fun entry => float_exact (snd entry)) table ->
  Forall plain_item (map prediction_item table)
  /\ entries_of_items (map prediction_item table) = table.
Proof.
  induction 1 as [| [p c] table Hc _ [IHp IHe]]; [split; [constructor | reflexivity] |].
  cbn [snd] in Hc. split.
  - constructor; [| exact IHp].
    exists [("prediction", p); ("confidence", PNum c)].
    split; [reflexivity |]. right. right. exists c. split; [reflexivity | exact Hc].
  - cbn [map entries_of_items]. unfold prediction_item at 1.
    cbn [entry_of_item dict_lookup find fst snd option_map String.eqb Ascii.eqb
         Bool.eqb].
    rewrite (proj2 (Qle_bool_iff _ _) Hc). rewrite IHe. reflexivity.
Qed.

Lemma read_plain_items (file : string) (items : list pyval) (w : World) (g : rng) :
  json_load_file w file = Ok (PList items) ->
  Forall plain_item items ->
  read_predictions file w g = (Ok (entries_of_items items), g).
Proof.
  intros Hfile Hplain. unfold read_predictions, bind, ask, lift.
  rewrite Hfile. cbn [py_iter].
  rewrite <- (app_nil_r items).
  rewrite (collect_plain_items items Hplain [] [] w g).
  rewrite app_nil_r. reflexivity.
Qed.

(** X4: a file that holds a JSON array of plain objects (each lacks a key, or
    has both with a number of at most [2^53] in magnitude as its confidence)
    loads as the (prediction, confidence) pairs of the objects that have both
    keys, in the order of the file; objects that lack a key are skipped
    without an error. *)
Theorem read_predictions_of_plain_items
        (file : string) (items : list pyval) (w : World) (g : rng) :
  json_load_file w file = Ok (PList items) ->
  Forall plain_item items ->
  read_predictions file w g = (Ok (entries_of_items items), g)
  /\ (forall entry, In entry (entries_of_items items) ->
                    exists item, In item items /\ entry_of_item item = Some entry).
Proof.
  intros Hfile Hplain. split; [apply read_plain_items; assumption |].
  clear. induction items as [| item items IH]; [intros entry [] |].
  intros entry Hin. cbn [entries_of_items] in Hin.
  destruct (entry_of_item item) as [e |] eqn:He.
  - destruct Hin as [<- | Hin].
    + exists item. split; [left; reflexivity | exact He].
    + destruct (IH entry Hin) as (it & Hit & Hent).
      exists it. split; [right; exact Hit | exact Hent].
  - destruct (IH entry Hin) as (it & Hit & Hent).
    exists it. split; [right; exact Hit | exact Hent].
Qed.

(** X5: writing and reading back.  When the first candidate file exists and
    holds the JSON array of the objects of a non-empty table whose confidences
    are at most [2^53] in magnitude, [load_sample_predictions] returns exactly
    that table, whatever the other candidates hold. *)
Theorem load_sample_predictions_round_trip
        (table : list sample) (w : World) (g : rng) :
  table <> [] ->
  Forall (fun entry => float_exact (snd entry)) table ->
  os_path_exists w "attached_assets/detection_results.json" = true ->
  json_load_file w "attached_assets/detection_results.json"
  = Ok (PList (map prediction_item table)) ->
  load_sample_predictions w g = (Ok table, g).
Proof.
  intros Hne Hexact Hex Hfile.
  destruct (entries_of_prediction_items table Hexact) as [Hplain Hentries].
  unfold load_sample_predictions, possible_locations.
  apply scan_loads. split; [assumption | split; [assumption |]].
  intros g0.
  rewrite (read_plain_items _ _ w g0 Hfile Hplain).
  rewrite Hentries. reflexivity.
Qed.

(** X6: one bad object spoils the file.  If an object has both keys and
    [float] rejects its confidence (a [null], a list, a string that is no
    number, an integer too large for binary64), reading the file raises that
    error although the objects before it were plain ones, and
    [load_sample_predictions] passes the file over. *)
Theorem bad_confidence_spoils_file
        (file : string) (good rest : list pyval) (d : list (string * pyval))
        (prediction confidence : pyval) (e : exn) (w : World) (g : rng) :
  json_load_file w file = Ok (PList (good ++ PDict d :: rest)%list) ->
  Forall plain_item good ->
  dict_lookup d "prediction" = Some prediction ->
  dict_lookup d "confidence" = Some confidence ->
  py_float confidence = Raise e ->
  read_predictions file w g = (Raise e, g)
  /\ passed_over w file.
Proof.
  intros Hfile Hgood Hp Hc Hfloat.
  assert (Hread : forall g0, read_predictions file w g0 = (Raise e, g0)).
  { intros g0. unfold read_predictions, bind, ask, lift.
    rewrite Hfile. cbn [py_iter].
    rewrite (collect_plain_items good Hgood (PDict d :: rest) [] w g0).
    cbn [collect_predictions]. unfold bind, lift, and_then, ret.
    rewrite !dict_lookup_in, Hp, Hc.
    rewrite (dict_lookup_getitem d "prediction" prediction Hp).
    rewrite (dict_lookup_getitem d "confidence" confidence Hc).
    rewrite Hfloat. reflexivity. }
  split; [apply Hread |].
  right. left. exists e. exact Hread.
Qed.

(** X7: [load_sample_predictions] never raises and never returns an empty
    table, whatever the candidate files hold, and it leaves the random
    generator as it found it; so [random.choice] of its result cannot fail. *)
Theorem sample_table_never_empty (w : World) (g : rng) :
  exists table entry,
    load_sample_predictions w g = (Ok table, g)
    /\ table <> []
    /\ random_choice table w g = (Ok entry, rng_tail g)
    /\ In entry table.
Proof.
  destruct (load_sample_predictions_total w) as (table & Hne & Hrun).
  destruct (random_choice_spec table w g Hne) as (entry & Hchoice & _ & Hin).
  exists table, entry. auto.
Qed.

Lemma extraction_pure (img : image) :
  exists r, forall (w : World) (g : rng), extract_features img w g = (r, g).
Proof.
  destruct (extract_color_features_pure img) as [color Hc].
  destruct (extract_texture_features_pure img) as [texture Ht].
  exists (match color, texture with
          | Ok c, Ok t => Ok (c ++ t)%list
          | Ok _, Raise e => Raise e
          | Raise e, _ => Raise e
          end).
  intros w g. unfold extract_features, bind, ret. rewrite Hc.
  destruct color as [c | e]; [| reflexivity].
  rewrite Ht. destruct texture; reflexivity.
Qed.

(** *** Preprocessing, and what [detect_disease] reads *)

(** X8: whenever [preprocess_image] returns, the file decoded to a non-empty
    array, the image it returns is 224 x 224, and feature extraction accepts
    it: it returns 11 numbers and raises nothing. *)
Theorem preprocessed_image_is_accepted
        (path : string) (w : World) (g g' : rng) (img : image) :
  preprocess_image path w g = (Ok img, g') ->
  g' = g
  /\ (exists raw, cv2_imread w path = Some raw /\ is_empty raw = false)
  /\ height img = 224%nat /\ width img = 224%nat
  /\ exists features,
       extract_features img w g = (Ok features, g)
       /\ List.length features = 11%nat.
Proof.
  intros Hrun. rewrite preprocess_image_run in Hrun.
  destruct (cv2_imread w path) as [raw |]; [| discriminate].
  destruct (is_empty raw) eqn:Hraw; [discriminate |].
  injection Hrun as <- <-.
  split; [reflexivity | split; [eauto | split; [reflexivity | split; [reflexivity |]]]].
  destruct (extract_features_returns (preprocessed raw) w g
              (preprocessed_not_empty raw))
    as (color & texture & _ & _ & Hfeat & Hlc & Hlt).
  exists (color ++ texture)%list. split; [assumption |].
  rewrite length_app, Hlc, Hlt. reflexivity.
Qed.

Lemma collect_predictions_any_world (items : list pyval) :
  forall (acc : list sample) (w1 w2 : World) (g : rng),
    collect_predictions items acc w1 g = collect_predictions items acc w2 g.
Proof.
  induction items as [| item rest IH]; intros acc w1 w2 g; [reflexivity |].
  cbn [collect_predictions]. unfold bind, lift, and_then, ret.
  destruct (py_in "prediction" item) as [[|] | e]; cbn; try reflexivity;
    [| apply IH].
  destruct (py_in "confidence" item) as [[|] | e]; cbn; try reflexivity;
    [| apply IH].
  destruct (py_getitem item "prediction") as [p | e]; cbn; [| reflexivity].
  destruct (py_getitem item "confidence") as [c | e]; cbn; [| reflexivity].
  destruct (py_float c) as [q | e]; cbn; [apply IH | reflexivity].
Qed.

Lemma scan_locations_step (file : string) (rest : list string)
      (acc : list sample) (w : World) (g : rng) :
  scan_locations (file :: rest) acc w g =
    if os_path_exists w file then
      match read_predictions file w g with
      | (Ok (p :: ps), g1) => (Ok (p :: ps), g1)
      | (_, g1) => scan_locations rest acc w g1
      end
    else scan_locations rest acc w g.
Proof.
  cbn [scan_locations]. unfold bind at 1, ask.
  destruct (os_path_exists w file); [| reflexivity].
  unfold bind, try_except, ret.
  destruct (read_predictions file w g) as [[[| p ps] | e] g1]; reflexivity.
Qed.

Lemma read_predictions_same_file (file : string) (w1 w2 : World) (g : rng) :
  json_load_file w1 file = json_load_file w2 file ->
  read_predictions file w1 g = read_predictions file w2 g.
Proof.
  intros Hjson. unfold read_predictions, bind, ask, lift. rewrite Hjson.
  destruct (json_load_file w2 file) as [results | e]; [| reflexivity].
  destruct (py_iter results) as [items | e]; [| reflexivity].
  apply collect_predictions_any_world.
Qed.

Lemma scan_locations_same_files (w1 w2 : World) (locations : list string) :
  (forall file, In file locations ->
                os_path_exists w1 file = os_path_exists w2 file
                /\ json_load_file w1 file = json_load_file w2 file) ->
  forall acc g, scan_locations locations acc w1 g = scan_locations locations acc w2 g.
Proof.
  induction locations as [| file rest IH]; intros Hsame acc g; [reflexivity |].
  destruct (Hsame file (or_introl eq_refl)) as [Hex Hjson].
  assert (Hrest : forall acc g,
            scan_locations rest acc w1 g = scan_locations rest acc w2 g).
  { apply IH. intros f Hf. apply Hsame. right. assumption. }
  rewrite !scan_locations_step, Hex.
  rewrite (read_predictions_same_file file w1 w2 g Hjson).
  destruct (os_path_exists w2 file); [| apply Hrest].
  destruct (read_predictions file w2 g) as [[[| p ps] | e] g1];
    try apply Hrest.
  reflexivity.
Qed.

Lemma random_choice_any_world {A : Type} (l : list A) (w1 w2 : World) (g : rng) :
  random_choice l w1 g = random_choice l w2 g.
Proof. destruct l; reflexivity. Qed.

Lemma simple_disease_classifier_any_world (features : list Q) (w1 w2 : World) (g : rng) :
  simple_disease_classifier features w1 g = simple_disease_classifier features w2 g.
Proof.
  unfold simple_disease_classifier, bind, lift, and_then, ret.
  repeat (match goal with
          | |- context [getitem ?l ?i] => destruct (getitem l i)
          | |- context [Qgtb ?a ?b] => destruct (Qgtb a b)
          | |- context [Qltb ?a ?b] => destruct (Qltb a b)
          end; cbv beta iota); reflexivity.
Qed.

Lemma classify_with_confidence_any_world (features : list Q) (w1 w2 : World) (g : rng) :
  classify_with_confidence features w1 g = classify_with_confidence features w2 g.
Proof.
  unfold classify_with_confidence, bind, lift.
  rewrite (simple_disease_classifier_any_world features w1 w2 g).
  destruct (simple_disease_classifier features w2 g) as [[idx | e] g1];
    [| reflexivity].
  destruct (getitem CLASSES idx) as [label | e]; [| reflexivity].
  destruct (str_contains "Healthy" label); reflexivity.
Qed.

(** X9: [detect_disease] reads nothing but the image at its path and the three
    candidate sample files: in two worlds that agree on these it behaves the
    same, result and generator state, whatever else differs. *)
Theorem detect_disease_reads_only_its_inputs
        (path : string) (w1 w2 : World) (g : rng) :
  same_inputs path w1 w2 ->
  detect_disease path w1 g = detect_disease path w2 g.
Proof.
  intros [Himg Hfiles].
  assert (Hload : forall g0,
            load_sample_predictions w1 g0 = load_sample_predictions w2 g0).
  { intros g0. apply scan_locations_same_files. exact Hfiles. }
  assert (Hfallback : forall e g0,
            fallback_prediction e w1 g0 = fallback_prediction e w2 g0).
  { intros e g0. unfold fallback_prediction, bind. rewrite Hload.
    destruct (load_sample_predictions w2 g0) as [[table | e'] g1];
      [apply random_choice_any_world | reflexivity]. }
  unfold detect_disease, try_except, bind.
  rewrite !preprocess_image_run, Himg.
  destruct (cv2_imread w2 path) as [raw |]; [| apply Hfallback].
  destruct (is_empty raw); [apply Hfallback |].
  destruct (extraction_pure (preprocessed raw)) as [r Hr].
  rewrite !Hr. destruct r as [features | e]; [| apply Hfallback].
  rewrite Hload.
  destruct (load_sample_predictions w2 g) as [[table | e] g1];
    [| apply Hfallback].
  unfold random_random. cbv beta iota.
  destruct (Qltb (unit_float (rng_head g1)) 0.3 && nonempty table).
  - rewrite (random_choice_any_world table w1 w2).
    destruct (random_choice table w2 (rng_tail g1)) as [[res | e] g2];
      [reflexivity | apply Hfallback].
  - rewrite (classify_with_confidence_any_world features w1 w2).
    destruct (classify_with_confidence features w2 (rng_tail g1))
      as [[res | e] g2]; [reflexivity | apply Hfallback].
Qed.

End Detector.

(** ** The detector on concrete inputs *)

Lemma sqrt_of_nonneg (x : Q) : (0 <= x)%Q -> (0 <= Demo.sqrt_of x)%Q.
Proof.
  intros _. unfold Demo.sqrt_of, Qle. cbn [Qnum Qden].
  pose proof (Z.sqrt_nonneg (Qfloor (x * 1000000))). lia.
Qed.

Lemma sqrt_of_unit (x : Q) : (0 <= x)%Q -> (x <= 1)%Q -> (Demo.sqrt_of x <= 1)%Q.
Proof.
  intros _ Hx. unfold Demo.sqrt_of, Qle. cbn [Qnum Qden].
  assert (Hfloor : (Qfloor (x * 1000000) <= 1000000)%Z).
  { rewrite <- (Qfloor_Z 1000000) at 2. apply Qfloor_resp_le.
    unfold inject_Z. lra. }
  pose proof (Z.sqrt_le_mono _ _ Hfloor) as Hs.
  change (Z.sqrt 1000000) with 1000%Z in Hs. lia.
Qed.

Lemma classifier_index_valid_on_featureless :
  exists idx g' label,
    simple_disease_classifier Demo.mean_of Demo.featureless
      Demo.no_files (Demo.always 38)
    = (Ok idx, g')
    /\ (0 <= idx <= List.length CLASSES - 1)%nat
    /\ getitem CLASSES idx = Ok label.
Proof.
  apply (classifier_index_valid Demo.mean_of Demo.featureless
    Demo.no_files (Demo.always 38)).
  reflexivity.
Defined.

Lemma rule1_takes_priority_over_rule2 :
  rule2 Demo.brown_and_yellow
  /\ exists idx label,
       simple_disease_classifier Demo.mean_of Demo.brown_and_yellow
         Demo.no_files (Demo.always 0)
       = (Ok idx, rng_tail (Demo.always 0))
       /\ idx = (if Qgtb (unit_float (rng_head (Demo.always 0))) 0.5 then 1 else 0)%nat
       /\ getitem CLASSES idx = Ok label
       /\ (label = "Apple_Apple_scab" \/ label = "Apple_Black_rot").
Proof.
  split; [reflexivity |].
  apply (rule1_takes_priority Demo.mean_of Demo.brown_and_yellow
    Demo.no_files (Demo.always 0)).
  - reflexivity.
  - split; reflexivity.
Defined.

Lemma feature_vector_bounds_on_leaf :
  exists ratios means texture,
    extract_color_features Demo.hsv_of Demo.leaf Demo.no_files (Demo.always 0)
    = (Ok (ratios ++ means)%list, Demo.always 0)
    /\ extract_texture_features Demo.gray_of Demo.sobel_of Demo.sqrt_of
         Demo.leaf Demo.no_files (Demo.always 0)
       = (Ok texture, Demo.always 0)
    /\ extract_features Demo.hsv_of Demo.gray_of Demo.sobel_of Demo.sqrt_of
         Demo.leaf Demo.no_files (Demo.always 0)
       = (Ok ((ratios ++ means) ++ texture)%list, Demo.always 0)
    /\ List.length ratios = 5%nat
    /\ List.length means = 3%nat
    /\ List.length texture = 3%nat
    /\ List.length ((ratios ++ means) ++ texture)%list = 11%nat
    /\ Forall unit_interval ((ratios ++ means) ++ texture)%list.
Proof.
  apply (feature_vector_bounds Demo.hsv_of Demo.gray_of Demo.sobel_of Demo.sqrt_of
           sqrt_of_nonneg sqrt_of_unit Demo.leaf Demo.no_files (Demo.always 0)).
  reflexivity.
Defined.

Lemma classifier_branch_confidence_on_leaf :
  exists label confidence g',
    detect_disease Demo.hsv_of Demo.gray_of Demo.sobel_of Demo.resize_of
      Demo.sqrt_of Demo.float_of Demo.mean_of
        "leaf.jpg" Demo.leaf_only (Demo.always (2 ^ 52))
    = (Ok (PStr label, confidence), g')
    /\ In label CLASSES
    /\ (if str_contains "Healthy" label
        then (0.7 <= confidence)%Q /\ (confidence <= 0.95)%Q
        else (0.6 <= confidence)%Q /\ (confidence <= 0.9)%Q).
Proof.
  apply (classifier_branch_confidence Demo.hsv_of Demo.gray_of Demo.sobel_of
           Demo.resize_of Demo.sqrt_of Demo.float_of Demo.mean_of
           "leaf.jpg" Demo.leaf_only (Demo.always (2 ^ 52)) Demo.leaf).
  - reflexivity.
  - reflexivity.
  - vm_compute. discriminate.
Defined.

Lemma fallback_on_featureless :
  (forall g,
     simple_disease_classifier Demo.mean_of Demo.featureless Demo.no_files g
     = (Ok (below (List.length CLASSES) (rng_head g)), rng_tail g))
  /\ (forall label,
        In label CLASSES <->
        exists g idx,
          simple_disease_classifier Demo.mean_of Demo.featureless Demo.no_files g
          = (Ok idx, rng_tail g)
          /\ getitem CLASSES idx = Ok label).
Proof.
  apply (proj2 (fallback_draws_from_all_classes Demo.mean_of)
           Demo.featureless Demo.no_files).
  - reflexivity.
  - intros [H _]. vm_compute in H. discriminate.
  - intros H. vm_compute in H. discriminate.
  - intros H. vm_compute in H. discriminate.
  - intros H. vm_compute in H. discriminate.
  - intros [_ H]. vm_compute in H. discriminate.
Defined.

Lemma sample_table_resolution_on_worlds :
  (exists table,
     load_sample_predictions Demo.float_of Demo.no_files (Demo.always 0)
     = (Ok table, Demo.always 0)
     /\ table = builtin_predictions /\ List.length table = 5%nat)
  /\ (exists table,
        load_sample_predictions Demo.float_of Demo.second_candidate (Demo.always 0)
        = (Ok table, Demo.always 0)
        /\ table = [(PStr "Wheat_Rust", 1.5%Q)]).
Proof.
  split.
  - destruct (sample_table_resolution Demo.float_of Demo.no_files (Demo.always 0))
      as (table & Hrun & Hbuiltin & _).
    exists table. split; [exact Hrun |].
    apply Hbuiltin. intros file _. left. reflexivity.
  - destruct (sample_table_resolution Demo.float_of Demo.second_candidate
                (Demo.always 0))
      as (table & Hrun & _ & Hfirst).
    exists table. split; [exact Hrun |].
    apply (Hfirst ["attached_assets/detection_results.json"]
                  "static/data/detection_results.json"
                  ["detection_results.json"]).
    + reflexivity.
    + intros earlier [<- | []]. right. left. exists ValueError.
      intros g. reflexivity.
    + split; [reflexivity | split; [discriminate | intros g; reflexivity]].
Defined.

Lemma detection_recovers_when_image_is_missing :
  preprocess_image Demo.resize_of "missing.jpg" Demo.no_files (Demo.always 3)
  = (Raise ValueError, Demo.always 3)
  /\ exists result g',
       detect_disease Demo.hsv_of Demo.gray_of Demo.sobel_of Demo.resize_of
         Demo.sqrt_of Demo.float_of Demo.mean_of
           "missing.jpg" Demo.no_files (Demo.always 3)
       = (Ok result, g').
Proof.
  destruct (detection_recovers_from_errors Demo.hsv_of Demo.gray_of Demo.sobel_of
              Demo.resize_of Demo.sqrt_of Demo.float_of Demo.mean_of
              "missing.jpg" Demo.no_files (Demo.always 3))
    as (table & _ & _ & Hreturns & _ & _ & Hmissing).
  split; [apply Hmissing; reflexivity | exact Hreturns].
Defined.

(** With no sample file the table is the built-in one. *)
Example builtin_table_without_files :
  fst (load_sample_predictions Demo.float_of Demo.no_files (Demo.always 0))
  = Ok builtin_predictions.
Proof. reflexivity. Qed.

(** The sample substitution on a picture that loads returns the built-in
    entry ["Apple_Scab"], which is no label of [CLASSES]; the error fallback
    with a sample file returns that file's entry, label and confidence as
    they are. *)
Lemma sample_entry_outside_invariant :
  fst (detect_disease Demo.hsv_of Demo.gray_of Demo.sobel_of Demo.resize_of
         Demo.sqrt_of Demo.float_of Demo.mean_of
           "leaf.jpg" Demo.leaf_only (Demo.always 0))
  = Ok (PStr "Apple_Scab", 0.904%Q)
  /\ ~ In "Apple_Scab" CLASSES
  /\ fst (detect_disease Demo.hsv_of Demo.gray_of Demo.sobel_of Demo.resize_of
            Demo.sqrt_of Demo.float_of Demo.mean_of "missing.jpg" Demo.second_candidate
            (Demo.always 0))
     = Ok (PStr "Wheat_Rust", 1.5%Q)
  /\ ~ In "Wheat_Rust" CLASSES
  /\ ~ (1.5 < 1)%Q.
Proof.
  split; [lazy; reflexivity |].
  split; [cbn; intuition discriminate |].
  split; [vm_compute; reflexivity |].
  split; [cbn; intuition discriminate |].
  intros H. vm_compute in H. discriminate.
Qed.

(** The image does not load, so the sample substitution is never reached;
    the fallback returns the built-in entry ["Apple_Scab"] with its confidence
    0.904, above 0.9. *)
Lemma fallback_confidence_outside_range :
  cv2_imread Demo.no_files "missing.jpg" = None
  /\ fst (detect_disease Demo.hsv_of Demo.gray_of Demo.sobel_of Demo.resize_of
            Demo.sqrt_of Demo.float_of Demo.mean_of
              "missing.jpg" Demo.no_files (Demo.always 0))
     = Ok (PStr "Apple_Scab", 0.904%Q)
  /\ str_contains "Healthy" "Apple_Scab" = false
  /\ ~ (0.904 <= 0.9)%Q.
Proof.
  split; [reflexivity | split; [reflexivity | split; [reflexivity |]]].
  intros H. vm_compute in H. apply H. reflexivity.
Qed.

(** The image does not load: [preprocess_image] raises, [detect_disease]
    returns an entry of the built-in table. *)
Lemma unloadable_image_is_not_raised :
  cv2_imread Demo.no_files "missing.jpg" = None
  /\ preprocess_image Demo.resize_of "missing.jpg" Demo.no_files (Demo.always 3)
     = (Raise ValueError, Demo.always 3)
  /\ fst (detect_disease Demo.hsv_of Demo.gray_of Demo.sobel_of Demo.resize_of
            Demo.sqrt_of Demo.float_of Demo.mean_of
              "missing.jpg" Demo.no_files (Demo.always 3))
     = Ok (PStr "Grape_Black_rot", 0.892%Q).
Proof. repeat split; reflexivity. Qed.

(** [CLASSES] has a 39th label, and the fallback rule returns its index. *)
Lemma classes_are_not_38 :
  List.length CLASSES <> 38%nat
  /\ fst (simple_disease_classifier Demo.mean_of Demo.featureless
    Demo.no_files (Demo.always 38))
     = Ok 38%nat
  /\ getitem CLASSES 38 = Ok "Tomato_Healthy".
Proof. split; [discriminate | split; reflexivity]. Qed.

(** The first existing candidate does not parse; the table is the content of
    the second one. *)
Lemma failing_first_candidate_is_skipped :
  find (os_path_exists Demo.second_candidate) possible_locations
  = Some "attached_assets/detection_results.json"
  /\ fst (read_predictions Demo.float_of "attached_assets/detection_results.json"
            Demo.second_candidate (Demo.always 0))
     = Raise ValueError
  /\ fst (read_predictions Demo.float_of "static/data/detection_results.json"
            Demo.second_candidate (Demo.always 0))
     = Ok [(PStr "Wheat_Rust", 1.5%Q)]
  /\ fst (load_sample_predictions Demo.float_of Demo.second_candidate (Demo.always 0))
     = Ok [(PStr "Wheat_Rust", 1.5%Q)].
Proof. repeat split; reflexivity. Qed.

(** ** Properties of the advice service *)

(** C9: when the external call fails (as it does with no credential
    configured), [get_treatment_recommendation "Tomato_Late_blight"] does not
    raise and returns the canned text, which contains "Description",
    "Symptoms", "Treatment", "Prevention" and "Tomato Late blight". *)
Theorem advice_falls_back_to_canned_text
        (generate_content : string -> string -> result Gemini.response) :
  (forall model prompt, Gemini.call_failed (generate_content model prompt)) ->
  exists advice,
    Gemini.get_treatment_recommendation generate_content "Tomato_Late_blight"
    = Ok advice
    /\ advice = (Gemini.fallback_head ++ "Tomato Late blight" ++ Gemini.fallback_tail)
    /\ str_contains "Description" advice = true
    /\ str_contains "Symptoms" advice = true
    /\ str_contains "Treatment" advice = true
    /\ str_contains "Prevention" advice = true
    /\ str_contains "Tomato Late blight" advice = true.
Proof.
  intros Hfail.
  exists (Gemini.fallback_head ++ "Tomato Late blight" ++ Gemini.fallback_tail).
  split.
  - unfold Gemini.get_treatment_recommendation.
    match goal with
    | |- context [generate_content ?m ?p] =>
        pose proof (Hfail m p) as H; destruct (generate_content m p) as [r | e]
    end.
    + destruct H as [Htruthy [e Htext]]. rewrite Htruthy, Htext. reflexivity.
    + reflexivity.
  - repeat split; vm_compute; reflexivity.
Qed.

Lemma advice_without_credential :
  exists advice,
    Gemini.get_treatment_recommendation Demo.unreachable_service "Tomato_Late_blight"
    = Ok advice
    /\ advice = (Gemini.fallback_head ++ "Tomato Late blight" ++ Gemini.fallback_tail)
    /\ str_contains "Description" advice = true
    /\ str_contains "Symptoms" advice = true
    /\ str_contains "Treatment" advice = true
    /\ str_contains "Prevention" advice = true
    /\ str_contains "Tomato Late blight" advice = true.
Proof.
  apply (advice_falls_back_to_canned_text Demo.unreachable_service).
  intros model prompt. exact I.
Defined.


(** ** Properties of the chat sessions *)

Section ChatProperties.

Import GeminiChat.

Variable chat : Type.
Variable service : Type.
Variable start_chat : service -> result chat * service.
Variable send_message : chat -> string -> service -> result Gemini.response * service.
Variable API_KEY : string.

Local Abbreviation initialize_chat := (initialize_chat chat service start_chat send_message API_KEY).
Local Abbreviation chat_with_gemini := (chat_with_gemini chat service start_chat send_message API_KEY).

Lemma dict_get_set_same {V : Type} (d : list (string * V)) (key : string) (v : V) :
  dict_get (dict_set d key v) key = Some v.
Proof.
  unfold dict_get. induction d as [| kv d IH]; cbn.
  - rewrite String.eqb_refl. reflexivity.
  - destruct (String.eqb (fst kv) key) eqn:E; cbn.
    + rewrite String.eqb_refl. reflexivity.
    + rewrite E. exact IH.
Qed.

Lemma dict_get_set_other {V : Type} (d : list (string * V)) (key other : string) (v : V) :
  other <> key ->
  dict_get (dict_set d key v) other = dict_get d other.
Proof.
  intros Hneq. unfold dict_get.
  assert (Hko : String.eqb key other = false).
  { apply String.eqb_neq. congruence. }
  induction d as [| kv d IH]; cbn.
  - rewrite Hko. reflexivity.
  - destruct (String.eqb (fst kv) key) eqn:E; cbn.
    + rewrite Hko. apply String.eqb_eq in E. rewrite E, Hko. reflexivity.
    + destruct (String.eqb (fst kv) other); [reflexivity | exact IH].
Qed.

(** What [initialize_chat] does to the dictionary. *)
Lemma initialize_chat_history (session_id : string) (st : state chat service) :
  (fst (initialize_chat session_id st) = false
   /\ chat_history (snd (initialize_chat session_id st)) = chat_history st)
  \/ (fst (initialize_chat session_id st) = true
      /\ no_key API_KEY = false
      /\ exists c r1,
           start_chat (remote st) = (Ok c, r1)
           /\ chat_history (snd (initialize_chat session_id st))
              = dict_set (chat_history st) session_id c).
Proof.
  unfold GeminiChat.initialize_chat.
  destruct (no_key API_KEY); [left; split; reflexivity |].
  destruct (start_chat (remote st)) as [[c | e] r1]; [| left; split; reflexivity].
  destruct (send_message c priming_message r1) as [[r | e] r2];
    [| left; split; reflexivity].
  right. split; [reflexivity | split; [reflexivity |]].
  exists c, r1. split; reflexivity.
Qed.

(** X10: [initialize_chat] answers [True] exactly when it has stored a session:
    then the key is configured, and the dictionary binds the session id to
    the chat the library started; when it answers [False] the dictionary is
    as it was.  Either way the sessions of other ids are untouched. *)
Theorem initialize_chat_stores_on_success
        (session_id : string) (st : state chat service) :
  (fst (initialize_chat session_id st) = true ->
   API_KEY <> ""
   /\ exists c r1,
        start_chat (remote st) = (Ok c, r1)
        /\ dict_get (chat_history (snd (initialize_chat session_id st))) session_id
           = Some c)
  /\ (fst (initialize_chat session_id st) = false ->
      chat_history (snd (initialize_chat session_id st)) = chat_history st)
  /\ (forall other,
        other <> session_id ->
        dict_get (chat_history (snd (initialize_chat session_id st))) other
        = dict_get (chat_history st) other).
Proof.
  destruct (initialize_chat_history session_id st)
    as [[Hf Hsame] | (Ht & Hkey & c & r1 & Hstart & Hset)].
  - split; [rewrite Hf; discriminate | split; [intros _; exact Hsame |]].
    intros other _. rewrite Hsame. reflexivity.
  - split; [| split; [rewrite Ht; discriminate |]].
    + intros _. split.
      * unfold no_key in Hkey. apply String.eqb_neq in Hkey. exact Hkey.
      * exists c, r1. split; [exact Hstart |].
        rewrite Hset. apply dict_get_set_same.
    + intros other Hneq. rewrite Hset. apply dict_get_set_other. exact Hneq.
Qed.

(** X11: [chat_with_gemini] never drops or replaces a session: a session id
    bound to a chat before the call is bound to the same chat after it,
    whatever the call was about and however it ended. *)
Theorem chat_sessions_are_never_evicted
        (session_id user_message : string) (st : state chat service)
        (other : string) (c : chat) :
  dict_get (chat_history st) other = Some c ->
  dict_get (chat_history (snd (chat_with_gemini session_id user_message st))) other
  = Some c.
Proof.
  intros Hbound. unfold GeminiChat.chat_with_gemini.
  destruct (no_key API_KEY) eqn:Hkey; [exact Hbound |].
  destruct (dict_get (chat_history st) session_id) as [c0 |] eqn:Hsid.
  - cbn [negb]. rewrite Hsid.
    destruct (send_message c0 user_message (remote st)) as [outcome r].
    exact Hbound.
  - assert (Hneq : other <> session_id) by congruence.
    pose proof (initialize_chat_history session_id st) as Hinit.
    destruct (initialize_chat session_id st) as [success st1].
    cbn [fst snd] in Hinit.
    destruct Hinit as [[-> Hsame] | (-> & _ & c1 & r1 & _ & Hset)]; cbn [negb].
    + cbn [snd]. rewrite Hsame. exact Hbound.
    + assert (Hother : dict_get (chat_history st1) other = Some c).
      { rewrite Hset, dict_get_set_other by exact Hneq. exact Hbound. }
      destruct (dict_get (chat_history st1) session_id) as [c2 |];
        [| exact Hother].
      destruct (send_message c2 user_message (remote st1)) as [outcome r].
      exact Hother.
Qed.

(** X12: sessions are created on first use.  If after a call the dictionary
    has no session for the id, the reply was one of the two refusals (no key,
    or the initialisation failed) and the dictionary is unchanged; after any
    other call the session exists. *)
Theorem chat_session_exists_unless_refused
        (session_id user_message : string) (st : state chat service) :
  dict_get (chat_history (snd (chat_with_gemini session_id user_message st)))
           session_id = None ->
  (fst (chat_with_gemini session_id user_message st) = sorry_message
   \/ fst (chat_with_gemini session_id user_message st) = failed_message)
  /\ chat_history (snd (chat_with_gemini session_id user_message st))
     = chat_history st.
Proof.
  unfold GeminiChat.chat_with_gemini.
  destruct (no_key API_KEY) eqn:Hkey; [intros _; split; [left |]; reflexivity |].
  destruct (dict_get (chat_history st) session_id) as [c0 |] eqn:Hsid.
  - cbn [negb]. rewrite Hsid.
    destruct (send_message c0 user_message (remote st)) as [outcome r].
    cbn [fst snd chat_history]. congruence.
  - pose proof (initialize_chat_history session_id st) as Hinit.
    destruct (initialize_chat session_id st) as [success st1].
    cbn [fst snd] in Hinit.
    destruct Hinit as [[-> Hsame] | (-> & _ & c1 & r1 & _ & Hset)]; cbn [negb].
    + intros _. split; [right; reflexivity | exact Hsame].
    + assert (Hnew : dict_get (chat_history st1) session_id = Some c1).
      { rewrite Hset. apply dict_get_set_same. }
      rewrite Hnew.
      destruct (send_message c1 user_message (remote st1)) as [outcome r].
      cbn [fst snd chat_history]. congruence.
Qed.

(** How the service is used.  Without a key neither function contacts
    it.  With a key and a session already stored for the id,
    [chat_with_gemini] starts no chat: it sends the user's message to the
    stored chat, once, answers with what became of it, and leaves the
    dictionary as it was. *)
Theorem chat_service_usage
        (session_id user_message : string) (st : state chat service) :
  (API_KEY = "" ->
   chat_with_gemini session_id user_message st = (sorry_message, st)
   /\ initialize_chat session_id st = (false, st))
  /\ (forall c,
        API_KEY <> "" ->
        dict_get (chat_history st) session_id = Some c ->
        chat_with_gemini session_id user_message st
        = (reply_of (fst (send_message c user_message (remote st))),
           mk_state (chat_history st)
                    (snd (send_message c user_message (remote st))))).
Proof.
  unfold GeminiChat.chat_with_gemini, GeminiChat.initialize_chat, no_key. split.
  - intros ->. cbn. split; reflexivity.
  - intros c Hkey Hsid. apply String.eqb_neq in Hkey. rewrite Hkey, Hsid.
    cbn [negb]. rewrite Hsid.
    destruct (send_message c user_message (remote st)) as [outcome r].
    reflexivity.
Qed.

End ChatProperties.

(** ** Further properties of the advice service *)

Lemma prefix_app (n rest : string) : prefix n (n ++ rest) = true.
Proof.
  induction n as [| a n IH]; cbn.
  - destruct rest; reflexivity.
  - destruct (ascii_dec a a) as [_ | Hneq]; [exact IH | congruence].
Qed.

Lemma str_contains_prefix (n hay : string) :
  prefix n hay = true -> str_contains n hay = true.
Proof.
  intros H. destruct hay as [| c hay].
  - destruct n; [reflexivity | discriminate H].
  - cbn [str_contains]. rewrite H. reflexivity.
Qed.

Lemma str_contains_app_r (n before hay : string) :
  str_contains n hay = true -> str_contains n (before ++ hay) = true.
Proof.
  intros H. induction before as [| c before IH]; [exact H |].
  cbn. rewrite IH. apply orb_true_r.
Qed.

Lemma str_contains_middle (n before after : string) :
  str_contains n (before ++ n ++ after) = true.
Proof. apply str_contains_app_r, str_contains_prefix, prefix_app. Qed.

Lemma str_replace_removes (old new : ascii) (s : string) :
  new <> old ->
  str_contains (String old EmptyString) (str_replace old new s) = false.
Proof.
  intros Hneq. induction s as [| c s IH]; [reflexivity |].
  cbn [str_replace str_contains]. rewrite IH, orb_false_r.
  cbn [prefix].
  destruct (Ascii.eqb_spec c old) as [-> | Hc];
    match goal with
    | |- context [ascii_dec ?a ?b] => destruct (ascii_dec a b)
    end; try reflexivity; congruence.
Qed.

Lemma str_replace_length (old new : ascii) (s : string) :
  String.length (str_replace old new s) = String.length s.
Proof. induction s as [| c s IH]; cbn; [reflexivity | rewrite IH; reflexivity]. Qed.

(** X13: the canned text for any disease name.  When the external call
    fails, the advice for a name is the canned text around the cleaned name:
    it holds the four section headers and the name with every underscore
    replaced by a space (no underscore is left, the length is kept). *)
Theorem canned_advice_for_any_disease
        (generate_content : string -> string -> result Gemini.response)
        (disease_name : string) :
  (forall model prompt, Gemini.call_failed (generate_content model prompt)) ->
  exists advice,
    Gemini.get_treatment_recommendation generate_content disease_name = Ok advice
    /\ str_contains "## Description" advice = true
    /\ str_contains "## Symptoms" advice = true
    /\ str_contains "## Treatment" advice = true
    /\ str_contains "## Prevention" advice = true
    /\ str_contains (str_replace "_" " " disease_name) advice = true
    /\ str_contains "_" (str_replace "_" " " disease_name) = false
    /\ String.length (str_replace "_" " " disease_name) = String.length disease_name.
Proof.
  intros Hfail.
  exists (Gemini.fallback_head ++ str_replace "_" " " disease_name
          ++ Gemini.fallback_tail).
  split.
  { unfold Gemini.get_treatment_recommendation.
    match goal with
    | |- context [generate_content ?m ?p] =>
        pose proof (Hfail m p) as H; destruct (generate_content m p) as [r | e]
    end.
    - destruct H as [Htruthy [e Htext]]. rewrite Htruthy, Htext. reflexivity.
    - reflexivity. }
  assert (Htail : forall header,
            str_contains header Gemini.fallback_tail = true ->
            str_contains header
              (Gemini.fallback_head ++ str_replace "_" " " disease_name
               ++ Gemini.fallback_tail) = true).
  { intros header H. apply str_contains_app_r, str_contains_app_r. exact H. }
  split; [apply Htail; vm_compute; reflexivity |].
  split; [apply Htail; vm_compute; reflexivity |].
  split; [apply Htail; vm_compute; reflexivity |].
  split; [apply Htail; vm_compute; reflexivity |].
  split; [apply str_contains_middle |].
  split; [apply str_replace_removes; discriminate | apply str_replace_length].
Qed.

Lemma advice_returns
      (generate_content : string -> string -> result Gemini.response)
      (disease_name : string) :
  exists advice,
    Gemini.get_treatment_recommendation generate_content disease_name = Ok advice.
Proof.
  unfold Gemini.get_treatment_recommendation.
  match goal with
  | |- context [generate_content ?m ?p] =>
      destruct (generate_content m p) as [r | e]; [| eauto]
  end.
  destruct (Gemini.truthy r); [| eauto].
  destruct (Gemini.text r); eauto.
Qed.

(** X14: [get_treatment_recommendation] never raises, whatever the service
    does.  It asks the model ["gemini-1.5-pro"] with a prompt that names the
    cleaned disease; a true response whose text can be read is returned word
    for word, and a false response gives the fixed "unable" sentence. *)
Theorem advice_never_raises
        (generate_content : string -> string -> result Gemini.response)
        (disease_name : string) :
  let prompt := Gemini.prompt_head ++ str_replace "_" " " disease_name
                ++ Gemini.prompt_tail in
  (exists advice,
     Gemini.get_treatment_recommendation generate_content disease_name = Ok advice)
  /\ str_contains (str_replace "_" " " disease_name) prompt = true
  /\ (forall r t,
        generate_content "gemini-1.5-pro" prompt = Ok r ->
        Gemini.truthy r = true -> Gemini.text r = Ok t ->
        Gemini.get_treatment_recommendation generate_content disease_name = Ok t)
  /\ (forall r,
        generate_content "gemini-1.5-pro" prompt = Ok r ->
        Gemini.truthy r = false ->
        Gemini.get_treatment_recommendation generate_content disease_name
        = Ok Gemini.unable_message).
Proof.
  intros prompt.
  split; [| split; [apply str_contains_middle | split]];
    [| unfold Gemini.get_treatment_recommendation; fold prompt ..].
  - apply advice_returns.
  - intros r t -> -> ->. reflexivity.
  - intros r -> ->. reflexivity.
Qed.

(** ** app.py: the treatment route *)

Module App.

(** What a view returns: [jsonify(body), status]. *)
Record reply : Type := mk_reply {
  body : pyval;
  status : nat
}.

(** The truth value of a parsed JSON value. *)
Definition py_truthy (v : pyval) : bool :=
  match v with
  | PNone => false
  | PBool b => b
  | PNum q => negb (Qeq_bool q 0)
  | PStr s => negb (String.eqb s "")
  | PList l => nonempty l
  | PDict d => nonempty d
  end.

Section Routes.

(** The external service, and [str(e)] for the two exceptions the route can
    report: one that escaped [get_treatment_recommendation], and the
    [AttributeError] of [disease_name.replace] when the name is no string
    (raised in the [try] of [get_treatment_recommendation] and again in its
    handler, so that it reaches the route). *)
Variable generate_content : string -> string -> result Gemini.response.
Variable str_of_exn : exn -> string.
Variable str_of_no_replace : pyval -> string.

(** [get_treatment_recommendation] applied to any parsed value: the advice,
    or the message of the exception that reaches the caller. *)
Definition recommend (disease_name : pyval) : string + string :=
  match disease_name with
  | PStr name =>
      match Gemini.get_treatment_recommendation generate_content name with
      | Ok treatment => inl treatment
      | Raise e => inr (str_of_exn e)
      end
  | other => inr (str_of_no_replace other)
  end.

(** The view [get_treatment].  [request_json] is what evaluating
    [request.json] gives: the parsed body, or the exception Flask raises when
    it cannot give one (an [HTTPException], as for a body that is no JSON).
    That statement, the test of [data] and [data['disease']] are outside the
    [try]: an exception they raise leaves the view. *)
Definition get_treatment (request_json : result pyval) : result reply :=
  match request_json with
  | Raise e => Raise e
  | Ok data =>
      let missing :=
        if negb (py_truthy data) then Ok true
        else match py_in "disease" data with
             | Ok found => Ok (negb found)
             | Raise e => Raise e
             end in
      match missing with
      | Raise e => Raise e
      | Ok true =>
          Ok (mk_reply (PDict [("error", PStr "Disease name is required")]) 400)
      | Ok false =>
          match py_getitem data "disease" with
          | Raise e => Raise e
          | Ok disease_name =>
              match recommend disease_name with
              | inl treatment =>
                  Ok (mk_reply (PDict [("treatment", PStr treatment)]) 200)
              | inr message => Ok (mk_reply (PDict [("error", PStr message)]) 500)
              end
          end
      end
  end.

(** X15: the treatment route on a body that parses to a JSON object.  Without
    a ["disease"] key (the empty object included) it answers 400.  With a string under that key it
    answers 200 with the advice of [get_treatment_recommendation]: never 500,
    whatever the external service does.  With anything but a string under the
    key it answers 500. *)
Theorem get_treatment_on_objects (d : list (string * pyval)) :
  (dict_lookup d "disease" = None ->
   get_treatment (Ok (PDict d))
   = Ok (mk_reply (PDict [("error", PStr "Disease name is required")]) 400))
  /\ (forall name,
        dict_lookup d "disease" = Some (PStr name) ->
        exists treatment,
          Gemini.get_treatment_recommendation generate_content name = Ok treatment
          /\ get_treatment (Ok (PDict d))
             = Ok (mk_reply (PDict [("treatment", PStr treatment)]) 200))
  /\ (forall v,
        dict_lookup d "disease" = Some v ->
        (forall name, v <> PStr name) ->
        get_treatment (Ok (PDict d))
        = Ok (mk_reply (PDict [("error", PStr (str_of_no_replace v))]) 500)).
Proof.
  assert (Hnonempty : forall v, dict_lookup d "disease" = Some v ->
                                py_truthy (PDict d) = true).
  { intros v Hv. destruct d; [discriminate Hv | reflexivity]. }
  unfold get_treatment. split; [| split].
  - intros Hnone.
    destruct (py_truthy (PDict d)); cbn [negb]; [| reflexivity].
    rewrite dict_lookup_in, Hnone. reflexivity.
  - intros name Hname.
    rewrite (Hnonempty _ Hname). cbn [negb].
    rewrite dict_lookup_in, Hname. cbn [negb].
    rewrite (dict_lookup_getitem d "disease" _ Hname).
    destruct (advice_returns generate_content name) as [treatment Hadvice].
    exists treatment. split; [exact Hadvice |].
    unfold recommend. rewrite Hadvice. reflexivity.
  - intros v Hv Hnot.
    rewrite (Hnonempty _ Hv). cbn [negb].
    rewrite dict_lookup_in, Hv. cbn [negb].
    rewrite (dict_lookup_getitem d "disease" _ Hv).
    unfold recommend. destruct v; try reflexivity.
    exfalso. eapply Hnot. reflexivity.
Qed.

Ltac settle_reply :=
  split; [| split]; intros; try discriminate;
  match goal with
  | H : Raise _ = Raise _ |- _ =>
      injection H as <-; right; split;
      [reflexivity | eexists; split; [reflexivity | intros; discriminate]]
  | H : Ok _ = Ok ?r |- _ => injection H as <-; cbn in *; auto; discriminate
  end.

(** X16: the treatment route answers 200 only when [request.json] gives a
    JSON object that holds a string under ["disease"], and the body is then
    the advice for that name; every other reply has status 400 or 500.  An
    exception leaves the view in two cases only: [request.json] raised it, or
    it is the [TypeError] of a parsed body that is no object. *)
Theorem get_treatment_ok_only_for_named_disease (request_json : result pyval) :
  (forall r,
     get_treatment request_json = Ok r ->
     status r = 200%nat ->
     exists d name treatment,
       request_json = Ok (PDict d)
       /\ dict_lookup d "disease" = Some (PStr name)
       /\ Gemini.get_treatment_recommendation generate_content name = Ok treatment
       /\ body r = PDict [("treatment", PStr treatment)])
  /\ (forall r,
        get_treatment request_json = Ok r ->
        status r = 200%nat \/ status r = 400%nat \/ status r = 500%nat)
  /\ (forall e,
        get_treatment request_json = Raise e ->
        request_json = Raise e
        \/ (e = TypeError
            /\ exists data, request_json = Ok data /\ forall d, data <> PDict d)).
Proof.
  unfold get_treatment.
  destruct request_json as [data | e0];
    [| repeat split; intros; try discriminate;
       left; congruence ].
  destruct data as [| b | q | s | l | d].
  - cbn. settle_reply.
  - destruct b; cbn; settle_reply.
  - cbn [py_truthy py_in]. destruct (negb (Qeq_bool q 0)); cbn; settle_reply.
  - cbn [py_truthy py_in py_getitem].
    destruct (negb (String.eqb s "")); cbn [negb];
      [destruct (str_contains "disease" s) |]; cbn; settle_reply.
  - cbn [py_truthy py_in py_getitem].
    destruct (nonempty l); cbn [negb];
      [match goal with
       | |- context [existsb ?f l] => destruct (existsb f l)
       end |]; cbn; settle_reply.
  - rewrite dict_lookup_in. cbn [py_truthy].
    destruct (nonempty d); cbn [negb]; [| settle_reply].
    destruct (dict_lookup d "disease") as [v |] eqn:Hv; cbn [negb];
      [| settle_reply].
    rewrite (dict_lookup_getitem d "disease" v Hv). unfold recommend.
    destruct v as [| b | q | name | l | d']; try settle_reply.
    destruct (Gemini.get_treatment_recommendation generate_content name)
      as [treatment | e] eqn:Hadvice; [| settle_reply].
    repeat split; intros r Hr; try discriminate Hr;
      injection Hr as <-; cbn; auto.
    intros _. exists d, name, treatment. auto.
Qed.

End Routes.

End App.

(** ** The further properties on concrete inputs *)

Lemma classifier_on_any_vector_short_and_long :
  index_or_IndexError
    (simple_disease_classifier Demo.mean_of [0.2%Q] Demo.no_files (Demo.always 0))
    (Demo.always 0)
  /\ simple_disease_classifier Demo.mean_of [0.2%Q] Demo.no_files (Demo.always 0)
     = (Raise IndexError, Demo.always 0)
  /\ exists idx g',
       simple_disease_classifier Demo.mean_of Demo.featureless
         Demo.no_files (Demo.always 0)
       = (Ok idx, g')
       /\ (idx < List.length CLASSES)%nat.
Proof.
  split; [| split].
  - exact (proj1 (classifier_on_any_vector Demo.mean_of [0.2%Q]
    Demo.no_files (Demo.always 0))).
  - reflexivity.
  - apply (proj2 (classifier_on_any_vector Demo.mean_of Demo.featureless Demo.no_files
                    (Demo.always 0))).
    cbn. lia.
Defined.

Lemma fixed_label_rules_on_yellow_white_black :
  rule3 DemoFiles.yellow_white_black
  /\ rule4 DemoFiles.yellow_white_black
  /\ simple_disease_classifier Demo.mean_of DemoFiles.yellow_white_black Demo.no_files
       (Demo.always 0)
     = (Ok 30%nat, Demo.always 0)
  /\ getitem CLASSES 30 = Ok "Tomato_Early_blight".
Proof.
  split; [reflexivity | split; [reflexivity |]].
  apply (fixed_label_rules Demo.mean_of DemoFiles.yellow_white_black Demo.no_files
           (Demo.always 0)).
  - cbn. lia.
  - intros [H _]. vm_compute in H. discriminate.
  - reflexivity.
Defined.

Lemma healthy_rule_on_green :
  exists idx label,
    simple_disease_classifier Demo.mean_of DemoFiles.green
      Demo.no_files (Demo.always 11)
    = (Ok idx, rng_tail (Demo.always 11))
    /\ getitem healthy_indices (below 12 (rng_head (Demo.always 11))) = Ok idx
    /\ getitem CLASSES idx = Ok label
    /\ str_contains "Healthy" label = true.
Proof.
  apply (proj2 (healthy_rule_picks_healthy_label Demo.mean_of)
           DemoFiles.green Demo.no_files
           (Demo.always 11)).
  - cbn. lia.
  - intros [H _]. vm_compute in H. discriminate.
  - intros H. vm_compute in H. discriminate.
  - intros H. vm_compute in H. discriminate.
  - intros H. vm_compute in H. discriminate.
  - split; reflexivity.
Defined.

Lemma plain_items_of_mixed :
  Forall plain_item [DemoFiles.corn; DemoFiles.unscored; DemoFiles.rust].
Proof.
  repeat constructor.
  - eexists. split; [reflexivity |]. right. right. eexists.
    split; [reflexivity | vm_compute; discriminate].
  - eexists. split; [reflexivity |]. right. left. reflexivity.
  - eexists. split; [reflexivity |]. right. right. eexists.
    split; [reflexivity | vm_compute; discriminate].
Qed.

Lemma read_predictions_of_mixed :
  read_predictions Demo.float_of "detection_results.json" DemoFiles.mixed
    (Demo.always 0)
  = (Ok [(PStr "Corn_Healthy", 0.81%Q); (PStr "Wheat_Rust", 0.4%Q)], Demo.always 0).
Proof.
  apply (read_predictions_of_plain_items Demo.float_of "detection_results.json"
           [DemoFiles.corn; DemoFiles.unscored; DemoFiles.rust]
           DemoFiles.mixed (Demo.always 0)).
  - reflexivity.
  - exact plain_items_of_mixed.
Defined.

Lemma round_trip_of_first_candidate :
  load_sample_predictions Demo.float_of DemoFiles.first_candidate (Demo.always 0)
  = (Ok [(PStr "Corn_Healthy", 0.81%Q); (PStr "Wheat_Rust", 0.4%Q)], Demo.always 0).
Proof.
  apply (load_sample_predictions_round_trip Demo.float_of
           [(PStr "Corn_Healthy", 0.81%Q); (PStr "Wheat_Rust", 0.4%Q)]
           DemoFiles.first_candidate (Demo.always 0)).
  - discriminate.
  - repeat constructor; vm_compute; discriminate.
  - reflexivity.
  - reflexivity.
Defined.

Lemma null_confidence_spoils_file :
  read_predictions Demo.float_of "detection_results.json" DemoFiles.spoiled
    (Demo.always 0)
  = (Raise TypeError, Demo.always 0)
  /\ passed_over Demo.float_of DemoFiles.spoiled "detection_results.json".
Proof.
  apply (bad_confidence_spoils_file Demo.float_of "detection_results.json"
           [DemoFiles.corn] [DemoFiles.rust]
           [("prediction", PStr "Apple_Healthy"); ("confidence", PNone)]
           (PStr "Apple_Healthy") PNone TypeError DemoFiles.spoiled (Demo.always 0)).
  - reflexivity.
  - repeat constructor.
    eexists. split; [reflexivity |]. right. right. eexists.
    split; [reflexivity | vm_compute; discriminate].
  - reflexivity.
  - reflexivity.
  - reflexivity.
Defined.

(** An integer confidence of 401 digits: [float] raises [OverflowError], the
    file is passed over and the table is the built-in one. *)
Example huge_confidence_spoils_file :
  py_float Demo.float_of (PNum (inject_Z (10 ^ 400))) = Raise OverflowError
  /\ fst (read_predictions Demo.float_of "attached_assets/detection_results.json"
            DemoFiles.overflowing (Demo.always 0))
     = Raise OverflowError
  /\ fst (load_sample_predictions Demo.float_of DemoFiles.overflowing (Demo.always 0))
     = Ok builtin_predictions.
Proof. split; [| split]; vm_compute; reflexivity. Qed.

Lemma sample_table_never_empty_when_spoiled :
  exists table entry,
    load_sample_predictions Demo.float_of DemoFiles.spoiled (Demo.always 0)
    = (Ok table, Demo.always 0)
    /\ table <> []
    /\ random_choice table DemoFiles.spoiled (Demo.always 0)
       = (Ok entry, rng_tail (Demo.always 0))
    /\ In entry table.
Proof.
  exact (sample_table_never_empty Demo.float_of DemoFiles.spoiled (Demo.always 0)).
Defined.

Lemma preprocessed_leaf_is_accepted :
  Demo.always 5 = Demo.always 5
  /\ (exists raw, cv2_imread Demo.leaf_only "leaf.jpg" = Some raw
                  /\ is_empty raw = false)
  /\ height (preprocessed Demo.resize_of Demo.leaf) = 224%nat
  /\ width (preprocessed Demo.resize_of Demo.leaf) = 224%nat
  /\ exists features,
       extract_features Demo.hsv_of Demo.gray_of Demo.sobel_of Demo.sqrt_of
         (preprocessed Demo.resize_of Demo.leaf) Demo.leaf_only (Demo.always 5)
       = (Ok features, Demo.always 5)
       /\ List.length features = 11%nat.
Proof.
  apply (preprocessed_image_is_accepted Demo.hsv_of Demo.gray_of Demo.sobel_of
           Demo.resize_of Demo.sqrt_of "leaf.jpg" Demo.leaf_only
           (Demo.always 5) (Demo.always 5)
           (preprocessed Demo.resize_of Demo.leaf)).
  reflexivity.
Defined.

Lemma detection_ignores_unrelated_files :
  detect_disease Demo.hsv_of Demo.gray_of Demo.sobel_of Demo.resize_of
    Demo.sqrt_of Demo.float_of Demo.mean_of "missing.jpg" Demo.no_files (Demo.always 2)
  = detect_disease Demo.hsv_of Demo.gray_of Demo.sobel_of Demo.resize_of
      Demo.sqrt_of Demo.float_of Demo.mean_of "missing.jpg" DemoFiles.unrelated_files
      (Demo.always 2).
Proof.
  apply (detect_disease_reads_only_its_inputs Demo.hsv_of Demo.gray_of
           Demo.sobel_of Demo.resize_of Demo.sqrt_of Demo.float_of Demo.mean_of
           "missing.jpg" Demo.no_files DemoFiles.unrelated_files (Demo.always 2)).
  split; [reflexivity |].
  intros file [<- | [<- | [<- | []]]]; split; reflexivity.
Defined.

Lemma initialize_chat_on_fresh_state :
  "secret" <> ""
  /\ exists c r1,
       DemoChat.start (GeminiChat.remote DemoChat.fresh) = (Ok c, r1)
       /\ GeminiChat.dict_get
            (GeminiChat.chat_history
               (snd (GeminiChat.initialize_chat nat nat DemoChat.start DemoChat.send
                       "secret" "bob" DemoChat.fresh)))
            "bob"
          = Some c.
Proof.
  apply (proj1 (initialize_chat_stores_on_success nat nat DemoChat.start
                  DemoChat.send "secret" "bob" DemoChat.fresh)).
  reflexivity.
Defined.

Lemma alice_survives_a_new_session :
  GeminiChat.dict_get
    (GeminiChat.chat_history
       (snd (GeminiChat.chat_with_gemini nat nat DemoChat.start DemoChat.send
               "secret" "bob" "hello" DemoChat.one_session)))
    "alice"
  = Some 7%nat.
Proof.
  apply (chat_sessions_are_never_evicted nat nat DemoChat.start DemoChat.send
           "secret" "bob" "hello" DemoChat.one_session "alice" 7%nat).
  reflexivity.
Defined.

Lemma refused_when_service_is_down :
  (fst (GeminiChat.chat_with_gemini nat nat DemoChat.start_down DemoChat.send
          "secret" "bob" "hello" DemoChat.fresh)
   = GeminiChat.sorry_message
   \/ fst (GeminiChat.chat_with_gemini nat nat DemoChat.start_down DemoChat.send
             "secret" "bob" "hello" DemoChat.fresh)
      = GeminiChat.failed_message)
  /\ GeminiChat.chat_history
       (snd (GeminiChat.chat_with_gemini nat nat DemoChat.start_down DemoChat.send
               "secret" "bob" "hello" DemoChat.fresh))
     = GeminiChat.chat_history DemoChat.fresh.
Proof.
  apply (chat_session_exists_unless_refused nat nat DemoChat.start_down
           DemoChat.send "secret" "bob" "hello" DemoChat.fresh).
  reflexivity.
Defined.

Lemma stored_chat_is_reused :
  GeminiChat.chat_with_gemini nat nat DemoChat.start DemoChat.send
    "secret" "alice" "hello" DemoChat.one_session
  = (GeminiChat.reply_of
       (fst (DemoChat.send 7%nat "hello" (GeminiChat.remote DemoChat.one_session))),
     GeminiChat.mk_state
       (GeminiChat.chat_history DemoChat.one_session)
       (snd (DemoChat.send 7%nat "hello" (GeminiChat.remote DemoChat.one_session)))).
Proof.
  apply (proj2 (chat_service_usage nat nat DemoChat.start DemoChat.send
                  "secret" "alice" "hello" DemoChat.one_session) 7%nat).
  - discriminate.
  - reflexivity.
Defined.

Lemma canned_advice_for_potato :
  exists advice,
    Gemini.get_treatment_recommendation Demo.unreachable_service
      "Potato_Early_blight" = Ok advice
    /\ str_contains "## Description" advice = true
    /\ str_contains "## Symptoms" advice = true
    /\ str_contains "## Treatment" advice = true
    /\ str_contains "## Prevention" advice = true
    /\ str_contains (str_replace "_" " " "Potato_Early_blight") advice = true
    /\ str_contains "_" (str_replace "_" " " "Potato_Early_blight") = false
    /\ String.length (str_replace "_" " " "Potato_Early_blight")
       = String.length "Potato_Early_blight".
Proof.
  apply (canned_advice_for_any_disease Demo.unreachable_service
           "Potato_Early_blight").
  intros model prompt. exact I.
Defined.

Lemma advice_of_answering_service :
  Gemini.get_treatment_recommendation DemoChat.answering_service "Apple_Apple_scab"
  = Ok "Prune and apply copper.".
Proof.
  apply (proj1 (proj2 (proj2 (advice_never_raises DemoChat.answering_service
                                "Apple_Apple_scab")))
           (Gemini.mk_response true (Ok "Prune and apply copper."))).
  - reflexivity.
  - reflexivity.
  - reflexivity.
Defined.

Lemma treatment_route_on_named_disease :
  exists treatment,
    Gemini.get_treatment_recommendation Demo.unreachable_service
      "Tomato_Late_blight" = Ok treatment
    /\ App.get_treatment Demo.unreachable_service DemoChat.message_of_exn
         DemoChat.message_of_value
         (Ok (PDict [("disease", PStr "Tomato_Late_blight")]))
       = Ok (App.mk_reply (PDict [("treatment", PStr treatment)]) 200).
Proof.
  apply (proj1 (proj2 (App.get_treatment_on_objects Demo.unreachable_service
                         DemoChat.message_of_exn DemoChat.message_of_value
                         [("disease", PStr "Tomato_Late_blight")]))).
  reflexivity.
Defined.

Lemma treatment_route_ok_reply :
  exists d name treatment,
    Ok (PDict [("disease", PStr "Rust")]) = Ok (PDict d)
    /\ dict_lookup d "disease" = Some (PStr name)
    /\ Gemini.get_treatment_recommendation DemoChat.answering_service name
       = Ok treatment
    /\ App.body (App.mk_reply (PDict [("treatment", PStr "Prune and apply copper.")]) 200)
       = PDict [("treatment", PStr treatment)].
Proof.
  apply (proj1 (App.get_treatment_ok_only_for_named_disease
                  DemoChat.answering_service DemoChat.message_of_exn
                  DemoChat.message_of_value
                  (Ok (PDict [("disease", PStr "Rust")])))).
  - reflexivity.
  - reflexivity.
Defined.

(** A body that is no JSON: the exception of [request.json] leaves the view. *)
Example treatment_route_on_unparsed_body :
  App.get_treatment Demo.unreachable_service DemoChat.message_of_exn
    DemoChat.message_of_value (Raise HTTPException)
  = Raise HTTPException.
Proof. reflexivity. Qed.
